(** * Entity store and coin ledger of the booking backend

    A shallow embedding of [DatabaseStorage] (the data-access layer) and of
    the request handlers registered by [registerRoutes], followed by the
    properties of the coin ledger, of the list queries and of the
    single-row reads and updates.

    The relational store is a record of tables, each table a list of rows
    in physical order.  One awaited query is one storage statement: it is
    applied to the store as a whole or rejected as a whole.  Whether a
    statement is rejected, the wall-clock time it sees and the identifier
    the store generates for an inserted row are read from an environment
    indexed by the number of statements issued so far.  Logging through
    [console.error] is not modelled. *)

From Stdlib Require Import ZArith List String Bool Lia.
From Stdlib Require Import Sorting.Sorted Sorting.Permutation.
From Stdlib Require Import DecimalString.
Import ListNotations.
Local Open Scope string_scope.
Local Open Scope Z_scope.

(** ** Rows

    Modelled from the spec: the table declarations and the row types of
    [@shared/schema] are not among the sources.  Each row carries the columns
    the code names ([users.id], [users.coinBalance], [appointments.userId],
    [appointments.appointmentDate], [products.isActive], ...) and the ones the
    data model lists.  Instants are milliseconds as [Z]; integer columns are
    unbounded [Z]. *)

Module users.
Record row := mk {
  id : string;
  email : option string;
  firstName : option string;
  lastName : option string;
  profileImageUrl : option string;
  coinBalance : Z;
  createdAt : Z;
  updatedAt : Z }.
End users.

Module appointments.
Record row := mk {
  id : string;
  userId : string;
  serviceTitle : string;
  appointmentDate : Z;
  coinsEarned : Z;
  status : string;
  createdAt : Z }.
End appointments.

Module products.
Record row := mk {
  id : string;
  title : string;
  description : string;
  price : Z;
  isActive : bool;
  createdAt : Z;
  updatedAt : Z }.
End products.

Module orders.
Record row := mk {
  id : string;
  userId : string;
  items : string;
  total : Z;
  coinsUsed : Z;
  createdAt : Z }.
End orders.

Module messages.
Record row := mk {
  id : string;
  userId : string;
  senderRole : string;
  content : string;
  isRead : bool;
  createdAt : Z }.
End messages.

Module coinTransactions.
Record row := mk {
  id : string;
  userId : string;
  amount : Z;
  type : string;
  description : string;
  relatedId : option string;
  createdAt : Z }.
End coinTransactions.

Definition User := users.row.
Definition Appointment := appointments.row.
Definition Product := products.row.
Definition Order := orders.row.
Definition Message := messages.row.
Definition CoinTransaction := coinTransactions.row.

(** ** Insertable shapes

    Modelled from the spec: the insert types of [@shared/schema] are not
    among the sources.  An insertable shape is the row without the columns
    the server fills (generated id, timestamps).  In [UpsertUser] and in the
    partial product every field but the user id is present-or-absent. *)

Module UpsertUser.
Record t := mk {
  id : string;
  email : option string;
  firstName : option string;
  lastName : option string;
  profileImageUrl : option string;
  coinBalance : option Z }.
End UpsertUser.

Module InsertAppointment.
Record t := mk {
  userId : string;
  serviceTitle : string;
  appointmentDate : Z;
  coinsEarned : Z;
  status : string }.
End InsertAppointment.

Module InsertProduct.
Record t := mk {
  title : string;
  description : string;
  price : Z;
  isActive : bool }.
End InsertProduct.

Module PartialProduct.
Record t := mk {
  title : option string;
  description : option string;
  price : option Z;
  isActive : option bool }.
End PartialProduct.

Module InsertOrder.
Record t := mk {
  userId : string;
  items : string;
  total : Z;
  coinsUsed : Z }.
End InsertOrder.

Module InsertMessage.
Record t := mk {
  userId : string;
  senderRole : string;
  content : string }.
End InsertMessage.

Module InsertCoinTransaction.
Record t := mk {
  userId : string;
  amount : Z;
  type : string;
  description : string;
  relatedId : option string }.
End InsertCoinTransaction.

(** Modelled from the spec: the column default of [users.coinBalance] is
    declared in [@shared/schema]; a user created on first authentication has
    an empty ledger, so the balance starts at zero. *)
Definition default_coinBalance : Z := 0.

(** ** The store *)

Record Db := mkDb {
  users_rows : list User;
  appointments_rows : list Appointment;
  products_rows : list Product;
  orders_rows : list Order;
  messages_rows : list Message;
  coinTransactions_rows : list CoinTransaction }.

Definition empty_db : Db := mkDb [] [] [] [] [] [].

Definition set_users (us : list User) (d : Db) : Db :=
  mkDb us (appointments_rows d) (products_rows d) (orders_rows d)
       (messages_rows d) (coinTransactions_rows d).

Definition set_appointments (l : list Appointment) (d : Db) : Db :=
  mkDb (users_rows d) l (products_rows d) (orders_rows d)
       (messages_rows d) (coinTransactions_rows d).

Definition set_products (l : list Product) (d : Db) : Db :=
  mkDb (users_rows d) (appointments_rows d) l (orders_rows d)
       (messages_rows d) (coinTransactions_rows d).

Definition set_orders (l : list Order) (d : Db) : Db :=
  mkDb (users_rows d) (appointments_rows d) (products_rows d) l
       (messages_rows d) (coinTransactions_rows d).

Definition set_messages (l : list Message) (d : Db) : Db :=
  mkDb (users_rows d) (appointments_rows d) (products_rows d) (orders_rows d)
       l (coinTransactions_rows d).

Definition set_coinTransactions (l : list CoinTransaction) (d : Db) : Db :=
  mkDb (users_rows d) (appointments_rows d) (products_rows d) (orders_rows d)
       (messages_rows d) l.

(** ** Query building blocks ([select], [where], [orderBy], [update], [insert]) *)

Section Query.
Context {A : Type}.

(** [.where(cond)] keeps the rows satisfying the condition, in table order. *)
Definition where_ (cond : A -> bool) (rows : list A) : list A :=
  filter cond rows.

(** [const [x] = rows]: the first row, [undefined] when there is none. *)
Definition first_row (rows : list A) : option A := hd_error rows.

Fixpoint insert_desc (key : A -> Z) (x : A) (sorted : list A) : list A :=
  match sorted with
  | [] => [x]
  | y :: rest =>
      if key y <=? key x then x :: y :: rest
      else y :: insert_desc key x rest
  end.

(** [.orderBy(desc(column))]: rows by decreasing key; rows with equal keys
    keep their table order. *)
Definition orderBy_desc (key : A -> Z) (rows : list A) : list A :=
  fold_right (insert_desc key) [] rows.

(** [.update(t).set(f).where(cond)]: every matching row is rewritten in
    place, from the value stored in that row. *)
Definition update_where (cond : A -> bool) (f : A -> A) (rows : list A)
  : list A :=
  map (fun r => if cond r then f r else r) rows.

(** [.returning()] of an update: the rewritten rows. *)
Definition returning_updated (cond : A -> bool) (f : A -> A) (rows : list A)
  : list A :=
  map f (where_ cond rows).

End Query.

(** ** Environment, errors and the effect monad *)

(** What the outside world decides for one storage statement. *)
Record Tick := mkTick {
  failure : option string;   (* the statement is rejected with this message *)
  now : Z;                   (* [new Date()] / [now()] at the statement *)
  fresh : string }.          (* the id generated for an inserted row *)

Record World := mkWorld {
  db : Db;
  env : nat -> Tick;
  pc : nat }.                (* statements issued so far *)

(** A thrown exception; both kinds carry [error.message]. *)
Inductive Error :=
| ZodError (message : string)
| StorageError (message : string).

Definition message (e : Error) : string :=
  match e with ZodError m => m | StorageError m => m end.

Definition M (A : Type) : Type := World -> (Error + A) * World.

Definition ret {A} (a : A) : M A := fun w => (inr a, w).

Definition bind {A B} (m : M A) (k : A -> M B) : M B :=
  fun w => match m w with
           | (inl e, w') => (inl e, w')
           | (inr a, w') => k a w'
           end.

Definition throw {A} (e : Error) : M A := fun w => (inl e, w).

Definition try_catch {A} (body : M A) (handler : Error -> M A) : M A :=
  fun w => match body w with
           | (inl e, w') => handler e w'
           | (inr a, w') => (inr a, w')
           end.

Notation "x <- m ;; k" := (bind m (fun x => k))
  (at level 61, m at next level, right associativity).

(** One awaited query: rejected as a whole (store untouched) or applied as
    a whole. *)
Definition statement {A} (q : Tick -> Db -> A * Db) : M A :=
  fun w =>
    let t := env w (pc w) in
    match failure t with
    | Some msg => (inl (StorageError msg), mkWorld (db w) (env w) (S (pc w)))
    | None =>
        let (a, d) := q t (db w) in
        (inr a, mkWorld d (env w) (S (pc w)))
    end.

(** [`${n}`] for an integer [n]. *)
Definition show_number (n : Z) : string := NilZero.string_of_int (Z.to_int n).

Definition orElse {A} (o : option A) (d : A) : A :=
  match o with Some a => a | None => d end.

(** ** [DatabaseStorage]

    Every method awaits exactly one query, so every method is one
    [statement]. *)

Module storage.

(* User operations *)

Definition getUser (id : string) : M (option User) :=
  statement (fun _ d =>
    (first_row (where_ (fun u => String.eqb (users.id u) id) (users_rows d)), d)).

(** The row [insert(users).values(userData)] creates: absent columns take
    their defaults. *)
Definition inserted_user (userData : UpsertUser.t) (t : Tick) : User :=
  users.mk (UpsertUser.id userData)
           (UpsertUser.email userData)
           (UpsertUser.firstName userData)
           (UpsertUser.lastName userData)
           (UpsertUser.profileImageUrl userData)
           (orElse (UpsertUser.coinBalance userData) default_coinBalance)
           (now t) (now t).

(** [set: { ...userData, updatedAt: new Date() }]: the provided fields are
    overwritten, the absent ones are left as stored. *)
Definition conflict_set (userData : UpsertUser.t) (t : Tick) (u : User) : User :=
  users.mk (UpsertUser.id userData)
           (match UpsertUser.email userData with
            | Some v => Some v | None => users.email u end)
           (match UpsertUser.firstName userData with
            | Some v => Some v | None => users.firstName u end)
           (match UpsertUser.lastName userData with
            | Some v => Some v | None => users.lastName u end)
           (match UpsertUser.profileImageUrl userData with
            | Some v => Some v | None => users.profileImageUrl u end)
           (orElse (UpsertUser.coinBalance userData) (users.coinBalance u))
           (users.createdAt u)
           (now t).

Definition upsertUser (userData : UpsertUser.t) : M User :=
  statement (fun t d =>
    let conflict := fun u => String.eqb (users.id u) (UpsertUser.id userData) in
    match first_row (where_ conflict (users_rows d)) with
    | None =>
        let user := inserted_user userData t in
        (user, set_users (users_rows d ++ [user]) d)
    | Some stored =>
        (conflict_set userData t stored,
         set_users (update_where conflict (conflict_set userData t)
                                 (users_rows d)) d)
    end).

(* Appointments *)

Definition createAppointment (appointment : InsertAppointment.t)
  : M Appointment :=
  statement (fun t d =>
    let result :=
      appointments.mk (fresh t)
                      (InsertAppointment.userId appointment)
                      (InsertAppointment.serviceTitle appointment)
                      (InsertAppointment.appointmentDate appointment)
                      (InsertAppointment.coinsEarned appointment)
                      (InsertAppointment.status appointment)
                      (now t) in
    (result, set_appointments (appointments_rows d ++ [result]) d)).

Definition getUserAppointments (userId : string) : M (list Appointment) :=
  statement (fun _ d =>
    (orderBy_desc appointments.appointmentDate
       (where_ (fun a => String.eqb (appointments.userId a) userId)
               (appointments_rows d)), d)).

Definition getAllAppointments : M (list Appointment) :=
  statement (fun _ d =>
    (orderBy_desc appointments.createdAt (appointments_rows d), d)).

Definition set_status (status : string) (a : Appointment) : Appointment :=
  appointments.mk (appointments.id a) (appointments.userId a)
                  (appointments.serviceTitle a) (appointments.appointmentDate a)
                  (appointments.coinsEarned a) status (appointments.createdAt a).

Definition updateAppointmentStatus (id status : string)
  : M (option Appointment) :=
  statement (fun _ d =>
    let cond := fun a => String.eqb (appointments.id a) id in
    (first_row (returning_updated cond (set_status status) (appointments_rows d)),
     set_appointments
       (update_where cond (set_status status) (appointments_rows d)) d)).

(* Products *)

Definition getProducts : M (list Product) :=
  statement (fun _ d =>
    (orderBy_desc products.createdAt
       (where_ (fun p => Bool.eqb (products.isActive p) true) (products_rows d)),
     d)).

Definition getProduct (id : string) : M (option Product) :=
  statement (fun _ d =>
    (first_row (where_ (fun p => String.eqb (products.id p) id)
                       (products_rows d)), d)).

Definition createProduct (product : InsertProduct.t) : M Product :=
  statement (fun t d =>
    let result :=
      products.mk (fresh t)
                  (InsertProduct.title product)
                  (InsertProduct.description product)
                  (InsertProduct.price product)
                  (InsertProduct.isActive product)
                  (now t) (now t) in
    (result, set_products (products_rows d ++ [result]) d)).

(** [set({ ...productData, updatedAt: new Date() })] *)
Definition set_product (productData : PartialProduct.t) (t : Tick) (p : Product)
  : Product :=
  products.mk (products.id p)
              (orElse (PartialProduct.title productData) (products.title p))
              (orElse (PartialProduct.description productData)
                      (products.description p))
              (orElse (PartialProduct.price productData) (products.price p))
              (orElse (PartialProduct.isActive productData)
                      (products.isActive p))
              (products.createdAt p)
              (now t).

Definition updateProduct (id : string) (productData : PartialProduct.t)
  : M (option Product) :=
  statement (fun t d =>
    let cond := fun p => String.eqb (products.id p) id in
    (first_row (returning_updated cond (set_product productData t)
                                  (products_rows d)),
     set_products
       (update_where cond (set_product productData t) (products_rows d)) d)).

(* Orders *)

Definition createOrder (order : InsertOrder.t) : M Order :=
  statement (fun t d =>
    let result :=
      orders.mk (fresh t)
                (InsertOrder.userId order)
                (InsertOrder.items order)
                (InsertOrder.total order)
                (InsertOrder.coinsUsed order)
                (now t) in
    (result, set_orders (orders_rows d ++ [result]) d)).

Definition getUserOrders (userId : string) : M (list Order) :=
  statement (fun _ d =>
    (orderBy_desc orders.createdAt
       (where_ (fun o => String.eqb (orders.userId o) userId) (orders_rows d)),
     d)).

Definition getAllOrders : M (list Order) :=
  statement (fun _ d => (orderBy_desc orders.createdAt (orders_rows d), d)).

(* Messages *)

Definition createMessage (message : InsertMessage.t) : M Message :=
  statement (fun t d =>
    let result :=
      messages.mk (fresh t)
                  (InsertMessage.userId message)
                  (InsertMessage.senderRole message)
                  (InsertMessage.content message)
                  false
                  (now t) in
    (result, set_messages (messages_rows d ++ [result]) d)).

Definition getUserMessages (userId : string) : M (list Message) :=
  statement (fun _ d =>
    (orderBy_desc messages.createdAt
       (where_ (fun m => String.eqb (messages.userId m) userId)
               (messages_rows d)), d)).

Definition getAdminMessages : M (list Message) :=
  statement (fun _ d => (orderBy_desc messages.createdAt (messages_rows d), d)).

Definition set_isRead (m : Message) : Message :=
  messages.mk (messages.id m) (messages.userId m) (messages.senderRole m)
              (messages.content m) true (messages.createdAt m).

Definition markMessageAsRead (id : string) : M unit :=
  statement (fun _ d =>
    (tt, set_messages
           (update_where (fun m => String.eqb (messages.id m) id) set_isRead
                         (messages_rows d)) d)).

(* Coins *)

Definition addCoinTransaction (transaction : InsertCoinTransaction.t)
  : M CoinTransaction :=
  statement (fun t d =>
    let result :=
      coinTransactions.mk (fresh t)
                          (InsertCoinTransaction.userId transaction)
                          (InsertCoinTransaction.amount transaction)
                          (InsertCoinTransaction.type transaction)
                          (InsertCoinTransaction.description transaction)
                          (InsertCoinTransaction.relatedId transaction)
                          (now t) in
    (result, set_coinTransactions (coinTransactions_rows d ++ [result]) d)).

Definition getUserCoinTransactions (userId : string)
  : M (list CoinTransaction) :=
  statement (fun _ d =>
    (orderBy_desc coinTransactions.createdAt
       (where_ (fun c => String.eqb (coinTransactions.userId c) userId)
               (coinTransactions_rows d)), d)).

(** [coinBalance: sql`${users.coinBalance} + ${amount}`]: the new balance is
    computed by the statement from the balance stored in the row. *)
Definition add_coins (amount : Z) (t : Tick) (u : User) : User :=
  users.mk (users.id u) (users.email u) (users.firstName u) (users.lastName u)
           (users.profileImageUrl u)
           (users.coinBalance u + amount)
           (users.createdAt u)
           (now t).

Definition updateUserCoins (userId : string) (amount : Z) : M (option User) :=
  statement (fun t d =>
    let cond := fun u => String.eqb (users.id u) userId in
    (first_row (returning_updated cond (add_coins amount t) (users_rows d)),
     set_users (update_where cond (add_coins amount t) (users_rows d)) d)).

End storage.

(** ** Request handlers ([registerRoutes]) *)

(** What a handler sends: [res.json(payload)] or
    [res.status(code).json({ message })]. *)
Inductive Response (A : Type) :=
| Json (status : Z) (payload : A)
| MessageJson (status : Z) (message : string).
Arguments Json {A} status payload.
Arguments MessageJson {A} status message.

Definition res_json {A} (payload : A) : M (Response A) := ret (Json 200 payload).

Definition res_status_json {A} (code : Z) (msg : string) : M (Response A) :=
  ret (MessageJson code msg).

(** [error.message || fallback]: an empty message is falsy. *)
Definition message_or (error : Error) (fallback : string) : string :=
  if String.eqb (message error) "" then fallback else message error.

(** [schema.parse(input)] returns the parsed data or throws. *)
Definition parse {A} (r : string + A) : M A :=
  match r with
  | inl msg => throw (ZodError msg)
  | inr data => ret data
  end.

Definition insufficient_coins : string := "אין מספיק מטבעות".

Definition earned_description (a : Appointment) : string :=
  ("הרווחת " ++ show_number (appointments.coinsEarned a) ++ " מטבעות על הזמנת "
   ++ appointments.serviceTitle a)%string.

Definition redeemed_description (coinsUsed : Z) : string :=
  ("נוצלו " ++ show_number coinsUsed ++ " מטבעות לרכישה")%string.

Section Routes.

(** The request body, and the four validators of [@shared/schema], which is
    not among the sources.  Each validator is applied to the object the
    handler builds from the body: [{ ...req.body, userId }] for appointments
    and orders, [req.body] for products,
    [{ ...req.body, userId, senderRole }] for messages.  [inl msg] stands for
    a thrown validation error with that message. *)
Context {Body : Type}.
Variable insertAppointmentSchema : Body -> string -> string + InsertAppointment.t.
Variable insertProductSchema : Body -> string + InsertProduct.t.
Variable insertOrderSchema : Body -> string -> string + InsertOrder.t.
Variable insertMessageSchema : Body -> string -> string -> string + InsertMessage.t.

Definition GET_api_auth_user (userId : string) : M (Response (option User)) :=
  try_catch
    (user <- storage.getUser userId ;;
     res_json user)
    (fun _ => res_status_json 500 "Failed to fetch user").

Definition POST_api_appointments (userId : string) (body : Body)
  : M (Response Appointment) :=
  try_catch
    (data <- parse (insertAppointmentSchema body userId) ;;
     appointment <- storage.createAppointment data ;;
     (* Award coins for booking *)
     _ <- storage.addCoinTransaction
            (InsertCoinTransaction.mk
               userId
               (appointments.coinsEarned appointment)
               "earned_appointment"
               (earned_description appointment)
               (Some (appointments.id appointment))) ;;
     _ <- storage.updateUserCoins userId (appointments.coinsEarned appointment) ;;
     res_json appointment)
    (fun error =>
       res_status_json 400 (message_or error "Failed to create appointment")).

Definition GET_api_appointments (userId : string)
  : M (Response (list Appointment)) :=
  try_catch
    (appointments <- storage.getUserAppointments userId ;;
     res_json appointments)
    (fun _ => res_status_json 500 "Failed to fetch appointments").

Definition GET_api_admin_appointments : M (Response (list Appointment)) :=
  try_catch
    (appointments <- storage.getAllAppointments ;;
     res_json appointments)
    (fun _ => res_status_json 500 "Failed to fetch appointments").

Definition GET_api_products : M (Response (list Product)) :=
  try_catch
    (products <- storage.getProducts ;;
     res_json products)
    (fun _ => res_status_json 500 "Failed to fetch products").

Definition POST_api_admin_products (body : Body) : M (Response Product) :=
  try_catch
    (data <- parse (insertProductSchema body) ;;
     product <- storage.createProduct data ;;
     res_json product)
    (fun error =>
       res_status_json 400 (message_or error "Failed to create product")).

Definition POST_api_orders (userId : string) (body : Body)
  : M (Response Order) :=
  try_catch
    (data <- parse (insertOrderSchema body userId) ;;
     let create :=
       order <- storage.createOrder data ;;
       res_json order in
     (* Validate and deduct coins if used *)
     if 0 <? InsertOrder.coinsUsed data then
       user <- storage.getUser userId ;;
       match user with
       | None => res_status_json 400 insufficient_coins
       | Some u =>
           if users.coinBalance u <? InsertOrder.coinsUsed data then
             res_status_json 400 insufficient_coins
           else
             _ <- storage.updateUserCoins userId (- InsertOrder.coinsUsed data) ;;
             _ <- storage.addCoinTransaction
                    (InsertCoinTransaction.mk
                       userId
                       (- InsertOrder.coinsUsed data)
                       "redeemed"
                       (redeemed_description (InsertOrder.coinsUsed data))
                       None) ;;
             create
       end
     else create)
    (fun error =>
       res_status_json 400 (message_or error "Failed to create order")).

Definition GET_api_orders (userId : string) : M (Response (list Order)) :=
  try_catch
    (orders <- storage.getUserOrders userId ;;
     res_json orders)
    (fun _ => res_status_json 500 "Failed to fetch orders").

Definition GET_api_admin_orders : M (Response (list Order)) :=
  try_catch
    (orders <- storage.getAllOrders ;;
     res_json orders)
    (fun _ => res_status_json 500 "Failed to fetch orders").

Definition POST_api_messages (userId : string) (body : Body)
  : M (Response Message) :=
  try_catch
    (data <- parse (insertMessageSchema body userId "customer") ;;
     message <- storage.createMessage data ;;
     res_json message)
    (fun error =>
       res_status_json 400 (message_or error "Failed to send message")).

Definition GET_api_messages (userId : string) : M (Response (list Message)) :=
  try_catch
    (messages <- storage.getUserMessages userId ;;
     res_json messages)
    (fun _ => res_status_json 500 "Failed to fetch messages").

Definition GET_api_admin_messages : M (Response (list Message)) :=
  try_catch
    (messages <- storage.getAdminMessages ;;
     res_json messages)
    (fun _ => res_status_json 500 "Failed to fetch messages").

Definition GET_api_coins_transactions (userId : string)
  : M (Response (list CoinTransaction)) :=
  try_catch
    (transactions <- storage.getUserCoinTransactions userId ;;
     res_json transactions)
    (fun _ => res_status_json 500 "Failed to fetch transactions").

(** *** Sequences of coin-affecting requests *)

Inductive CoinRequest :=
| BookAppointment (userId : string) (body : Body)
| PlaceOrder (userId : string) (body : Body).

(** The world after the handler of one request has run. *)
Definition serve (r : CoinRequest) (w : World) : World :=
  match r with
  | BookAppointment userId body => snd (POST_api_appointments userId body w)
  | PlaceOrder userId body => snd (POST_api_orders userId body w)
  end.

Definition serve_all (rs : list CoinRequest) (w : World) : World :=
  fold_left (fun w r => serve r w) rs w.

End Routes.

(** ** The ledger and the balance *)

(** Sum of the amounts of the ledger entries of user [U]. *)
Definition ledger_sum (U : string) (ledger : list CoinTransaction) : Z :=
  fold_right Z.add 0
    (map coinTransactions.amount
         (where_ (fun c => String.eqb (coinTransactions.userId c) U) ledger)).

(** The balance a read of user [U] sees. *)
Definition coinBalance_of (U : string) (d : Db) : option Z :=
  option_map users.coinBalance
    (first_row (where_ (fun u => String.eqb (users.id u) U) (users_rows d))).

(** Every stored user's balance equals the sum of that user's ledger. *)
Definition reconciled (d : Db) : Prop :=
  forall u, In u (users_rows d) ->
    users.coinBalance u = ledger_sum (users.id u) (coinTransactions_rows d).

(** No storage statement is ever rejected. *)
Definition never_fails (w : World) : Prop :=
  forall n, failure (env w n) = None.

Definition with_updatedAt (t : Z) (u : User) : User :=
  users.mk (users.id u) (users.email u) (users.firstName u) (users.lastName u)
           (users.profileImageUrl u) (users.coinBalance u) (users.createdAt u) t.

(** Rows by decreasing key. *)
Definition sorted_desc {A} (key : A -> Z) (rows : list A) : Prop :=
  StronglySorted (fun a b => key b <= key a) rows.

(** The list query [q], issued in world [w], answers with the rows of
    [table] that satisfy [cond], each exactly once, by decreasing [key], and
    leaves the store as it was. *)
Definition answers_by {A} (q : M (list A)) (table : list A) (cond : A -> bool)
  (key : A -> Z) (w : World) : Prop :=
  exists rows,
    q w = (inr rows, mkWorld (db w) (env w) (S (pc w)))
    /\ Permutation (where_ cond table) rows
    /\ sorted_desc key rows.

Definition every_row {A} (_ : A) : bool := true.

(** ** A concrete body, validators and worlds for the worked examples *)

(** A request body as the client sends it. *)
Inductive JsonBody :=
| AppointmentBody (serviceTitle : string) (appointmentDate coinsEarned : Z)
| ProductBody (title description : string) (price : Z)
| OrderBody (items : string) (total coinsUsed : Z)
| MessageBody (content : string).

(** Modelled from the spec: the validators of [@shared/schema] are not among
    the sources.  These reject a body of the wrong shape and an out-of-range
    value such as a negative coin amount, and keep the fields otherwise. *)
Definition exampleAppointmentSchema (body : JsonBody) (userId : string)
  : string + InsertAppointment.t :=
  match body with
  | AppointmentBody serviceTitle appointmentDate coinsEarned =>
      if coinsEarned <? 0 then inl "coinsEarned must not be negative"
      else inr (InsertAppointment.mk userId serviceTitle appointmentDate
                                     coinsEarned "created")
  | _ => inl "Required"
  end.

Definition exampleProductSchema (body : JsonBody) : string + InsertProduct.t :=
  match body with
  | ProductBody title description price =>
      if price <? 0 then inl "price must not be negative"
      else inr (InsertProduct.mk title description price true)
  | _ => inl "Required"
  end.

Definition exampleOrderSchema (body : JsonBody) (userId : string)
  : string + InsertOrder.t :=
  match body with
  | OrderBody items total coinsUsed =>
      if coinsUsed <? 0 then inl "coinsUsed must not be negative"
      else inr (InsertOrder.mk userId items total coinsUsed)
  | _ => inl "Required"
  end.

Definition exampleMessageSchema (body : JsonBody) (userId senderRole : string)
  : string + InsertMessage.t :=
  match body with
  | MessageBody content => inr (InsertMessage.mk userId senderRole content)
  | _ => inl "Required"
  end.

(** An environment in which no statement is rejected: statement [n] runs at
    time [1000 + n] and generates the id [row-n]. *)
Definition calm_env (n : nat) : Tick :=
  mkTick None (1000 + Z.of_nat n) ("row-" ++ show_number (Z.of_nat n)).

(** The same environment, except that statement [k] is rejected. *)
Definition failing_env (k : nat) (n : nat) : Tick :=
  mkTick (if Nat.eqb n k then Some "connection terminated" else None)
         (1000 + Z.of_nat n) ("row-" ++ show_number (Z.of_nat n)).

Definition dana (balance : Z) : User :=
  users.mk "dana" (Some "dana@example.org") (Some "Dana") None None
           balance 10 10.

Definition welcome_gift (amount : Z) : CoinTransaction :=
  coinTransactions.mk "gift-1" "dana" amount "earned_appointment" "welcome"
                      None 10.

Definition shampoo : Product :=
  products.mk "p-1" "Shampoo" "500 ml" 40 true 20 20.

Definition old_comb : Product :=
  products.mk "p-2" "Comb" "discontinued" 5 false 30 30.

Definition haircut : Appointment :=
  appointments.mk "a-1" "dana" "Haircut" 5000 20 "created" 40.

Definition colouring : Appointment :=
  appointments.mk "a-2" "dana" "Colouring" 7000 30 "created" 50.

(** Dana with balance [balance], backed by one ledger entry of that
    amount. *)
Definition salon_db (balance : Z) : Db :=
  mkDb [dana balance] [haircut; colouring] [shampoo; old_comb] [] []
       [welcome_gift balance].

(** Dana freshly registered: balance zero, empty ledger. *)
Definition fresh_db : Db := mkDb [dana 0] [] [] [] [] [].

(** ** Every route, and what a run may change *)

Section AllRoutes.
Context {Body : Type}.
Variable insertAppointmentSchema : Body -> string -> string + InsertAppointment.t.
Variable insertProductSchema : Body -> string + InsertProduct.t.
Variable insertOrderSchema : Body -> string -> string + InsertOrder.t.
Variable insertMessageSchema : Body -> string -> string -> string + InsertMessage.t.

(** One request per route registered by [registerRoutes], with the
    authenticated user id where the handler reads [req.user.claims.sub]. *)
Inductive Request :=
| GetAuthUser (userId : string)
| PostAppointment (userId : string) (body : Body)
| GetAppointments (userId : string)
| GetAdminAppointments
| GetProducts
| PostAdminProduct (body : Body)
| PostOrder (userId : string) (body : Body)
| GetOrders (userId : string)
| GetAdminOrders
| PostMessage (userId : string) (body : Body)
| GetMessages (userId : string)
| GetAdminMessages
| GetCoinTransactions (userId : string).

(** The world after the handler of the request's route has run. *)
Definition respond (r : Request) (w : World) : World :=
  match r with
  | GetAuthUser userId => snd (GET_api_auth_user userId w)
  | PostAppointment userId body =>
      snd (POST_api_appointments insertAppointmentSchema userId body w)
  | GetAppointments userId => snd (GET_api_appointments userId w)
  | GetAdminAppointments => snd (GET_api_admin_appointments w)
  | GetProducts => snd (GET_api_products w)
  | PostAdminProduct body =>
      snd (POST_api_admin_products insertProductSchema body w)
  | PostOrder userId body =>
      snd (POST_api_orders insertOrderSchema userId body w)
  | GetOrders userId => snd (GET_api_orders userId w)
  | GetAdminOrders => snd (GET_api_admin_orders w)
  | PostMessage userId body =>
      snd (POST_api_messages insertMessageSchema userId body w)
  | GetMessages userId => snd (GET_api_messages userId w)
  | GetAdminMessages => snd (GET_api_admin_messages w)
  | GetCoinTransactions userId => snd (GET_api_coins_transactions userId w)
  end.

Definition respond_all (rs : list Request) (w : World) : World :=
  fold_left (fun w r => respond r w) rs w.

End AllRoutes.

Definition status_of {A} (r : Response A) : Z :=
  match r with Json code _ => code | MessageJson code _ => code end.

(** [rows'] is [rows] followed by added rows. *)
Definition extends {A} (rows rows' : list A) : Prop :=
  exists added, rows' = (rows ++ added)%list.

(** Nothing written is lost: ledger entries and orders stay as written, in
    place, and no user, appointment, product or message row is removed or
    given another id. *)
Definition history_kept (d d' : Db) : Prop :=
  extends (coinTransactions_rows d) (coinTransactions_rows d')
  /\ extends (orders_rows d) (orders_rows d')
  /\ extends (map users.id (users_rows d)) (map users.id (users_rows d'))
  /\ extends (map appointments.id (appointments_rows d))
             (map appointments.id (appointments_rows d'))
  /\ extends (map products.id (products_rows d))
             (map products.id (products_rows d'))
  /\ extends (map messages.id (messages_rows d))
             (map messages.id (messages_rows d')).

(** Whatever the environment does, running [m] relates the store before to
    the store after by [R]. *)
Definition keeps (R : Db -> Db -> Prop) {A} (m : M A) : Prop :=
  forall w, R (db w) (db (snd (m w))).

(** A reading handler, run in [w]: it issues one statement, leaves the
    store as it was, and sends [rows] of the store with status 200, or,
    when the read is rejected, status 500 with the handler's own fixed
    message. *)
Definition reads_only {A} (h : M (Response A)) (rows : Db -> A)
  (fixed : string) (w : World) : Prop :=
  exists r,
    h w = (inr r, mkWorld (db w) (env w) (S (pc w)))
    /\ match failure (env w (pc w)) with
       | None => r = Json 200 (rows (db w))
       | Some _ => r = MessageJson 500 fixed
       end.

(** The response is the row just created, which the handler left as the
    last row of [table]; or it is an error of status 400 with a message
    that is not empty. *)
Definition created_or_refused {A} (table : Db -> list A) (w w' : World)
  (r : Response A) : Prop :=
  (exists row, r = Json 200 row /\ table (db w') = (table (db w) ++ [row])%list)
  \/ (exists msg, r = MessageJson 400 msg /\ msg <> "").

(** A patch that changes nothing but the visibility flag. *)
Definition deactivate : PartialProduct.t :=
  PartialProduct.mk None None None (Some false).

(** ** Facts about the query building blocks *)

Section QueryFacts.
Context {A : Type}.
Implicit Types (rows : list A) (cond : A -> bool) (key : A -> Z).

Lemma insert_desc_perm key x rows :
  Permutation (x :: rows) (insert_desc key x rows).
Proof.
  induction rows as [|y rest IH]; simpl.
  - apply Permutation_refl.
  - destruct (key y <=? key x).
    + apply Permutation_refl.
    + eapply perm_trans; [apply perm_swap|].
      apply perm_skip, IH.
Qed.

Lemma orderBy_desc_perm key rows : Permutation rows (orderBy_desc key rows).
Proof.
  induction rows as [|x rest IH]; simpl.
  - constructor.
  - eapply perm_trans; [apply perm_skip, IH|].
    apply insert_desc_perm.
Qed.

Lemma insert_desc_sorted key x rows :
  sorted_desc key rows -> sorted_desc key (insert_desc key x rows).
Proof.
  unfold sorted_desc.
  induction rows as [|y rest IH]; simpl; intros Hs.
  - repeat constructor.
  - inversion Hs as [|? ? Hrest Hall]; subst.
    destruct (key y <=? key x) eqn:E.
    + apply Z.leb_le in E.
      constructor; [assumption|].
      constructor; [assumption|].
      eapply Forall_impl; [|exact Hall].
      simpl; intros; lia.
    + apply Z.leb_gt in E.
      constructor; [apply IH; assumption|].
      eapply Permutation_Forall; [apply insert_desc_perm|].
      constructor; [lia|assumption].
Qed.

Lemma orderBy_desc_sorted key rows : sorted_desc key (orderBy_desc key rows).
Proof.
  induction rows as [|x rest IH]; simpl.
  - constructor.
  - apply insert_desc_sorted, IH.
Qed.

Lemma orderBy_desc_In key rows x : In x (orderBy_desc key rows) <-> In x rows.
Proof.
  split; apply Permutation_in;
    [apply Permutation_sym|]; apply orderBy_desc_perm.
Qed.

Lemma where_none cond rows :
  (forall x, In x rows -> cond x = false) -> where_ cond rows = [].
Proof.
  unfold where_.
  induction rows as [|y rest IH]; simpl; intros H; [reflexivity|].
  rewrite (H y (or_introl eq_refl)).
  apply IH; intros x Hx; apply H; right; exact Hx.
Qed.

Lemma first_row_none cond rows :
  first_row (where_ cond rows) = None ->
  forall x, In x rows -> cond x = false.
Proof.
  unfold where_, first_row.
  induction rows as [|y rest IH]; simpl; intros H x Hx; [contradiction|].
  destruct (cond y) eqn:E; [discriminate|].
  destruct Hx as [<-|Hx]; [exact E|apply IH; assumption].
Qed.

Lemma update_where_none cond (f : A -> A) rows :
  (forall x, In x rows -> cond x = false) -> update_where cond f rows = rows.
Proof.
  unfold update_where.
  induction rows as [|y rest IH]; simpl; intros H; [reflexivity|].
  rewrite (H y (or_introl eq_refl)).
  f_equal; apply IH; intros x Hx; apply H; right; exact Hx.
Qed.

Lemma returning_none cond (f : A -> A) rows :
  (forall x, In x rows -> cond x = false) -> returning_updated cond f rows = [].
Proof.
  intros H; unfold returning_updated; rewrite where_none by exact H.
  reflexivity.
Qed.

(** A read after an update that keeps the condition sees the rewritten
    first row. *)
Lemma first_row_update cond (f : A -> A) rows :
  (forall x, cond x = true -> cond (f x) = true) ->
  first_row (where_ cond (update_where cond f rows))
  = option_map f (first_row (where_ cond rows)).
Proof.
  intros Hf; unfold where_, update_where, first_row.
  induction rows as [|y rest IH]; simpl; [reflexivity|].
  destruct (cond y) eqn:E.
  - rewrite (Hf y E); reflexivity.
  - rewrite E; exact IH.
Qed.

Lemma update_where_ext cond (f g : A -> A) rows :
  (forall x, In x rows -> cond x = true -> f x = g x) ->
  update_where cond f rows = update_where cond g rows.
Proof.
  intros H; unfold update_where; apply map_ext_in.
  intros x Hx; destruct (cond x) eqn:E; [apply H; assumption|reflexivity].
Qed.

Lemma update_where_In cond (f : A -> A) rows y :
  In y (update_where cond f rows) ->
  exists x, In x rows /\ y = if cond x then f x else x.
Proof.
  unfold update_where; rewrite in_map_iff.
  intros (x & <- & Hx); exists x; split; [exact Hx|reflexivity].
Qed.

Lemma sorted_desc_keys key rows :
  sorted_desc key rows -> StronglySorted (fun a b => b <= a) (map key rows).
Proof.
  unfold sorted_desc; induction 1 as [|x l Hs IH Hx]; simpl; constructor.
  - exact IH.
  - rewrite Forall_map; exact Hx.
Qed.

Lemma descending_perm_eq (k1 k2 : list Z) :
  Permutation k1 k2 ->
  StronglySorted (fun a b => b <= a) k1 ->
  StronglySorted (fun a b => b <= a) k2 ->
  k1 = k2.
Proof.
  revert k2; induction k1 as [|a l1 IH]; intros k2 Hp H1 H2.
  - apply Permutation_nil in Hp; subst; reflexivity.
  - destruct k2 as [|b l2];
      [apply Permutation_sym, Permutation_nil in Hp; discriminate|].
    inversion H1 as [|? ? Hs1 Ha]; inversion H2 as [|? ? Hs2 Hb]; subst.
    rewrite Forall_forall in Ha, Hb.
    assert (Hab : a <= b).
    { assert (Hin : In a (b :: l2))
        by (eapply Permutation_in; [exact Hp|left; reflexivity]).
      destruct Hin as [->|Hin]; [lia|apply Hb, Hin]. }
    assert (Hba : b <= a).
    { assert (Hin : In b (a :: l1))
        by (eapply Permutation_in;
            [apply Permutation_sym, Hp|left; reflexivity]).
      destruct Hin as [->|Hin]; [lia|apply Ha, Hin]. }
    assert (a = b) by lia; subst b.
    f_equal; apply IH; try assumption.
    eapply Permutation_cons_inv; exact Hp.
Qed.

(** Two descending arrangements of the same rows show the same sequence of
    keys: the order of an answer is fixed up to rows with equal keys. *)
Lemma sorted_desc_keys_determined key rows1 rows2 :
  Permutation rows1 rows2 ->
  sorted_desc key rows1 -> sorted_desc key rows2 ->
  map key rows1 = map key rows2.
Proof.
  intros Hp H1 H2; apply descending_perm_eq.
  - apply Permutation_map, Hp.
  - apply sorted_desc_keys, H1.
  - apply sorted_desc_keys, H2.
Qed.

Lemma first_row_returning cond (f : A -> A) rows :
  first_row (returning_updated cond f rows)
  = option_map f (first_row (where_ cond rows)).
Proof.
  unfold returning_updated, first_row.
  destruct (where_ cond rows); reflexivity.
Qed.

Lemma update_where_nth cond (f : A -> A) rows i :
  nth_error (update_where cond f rows) i
  = option_map (fun r => if cond r then f r else r) (nth_error rows i).
Proof.
  unfold update_where; apply nth_error_map.
Qed.

Lemma first_row_in cond rows x :
  first_row (where_ cond rows) = Some x -> In x rows /\ cond x = true.
Proof.
  unfold first_row, where_; intros H.
  apply filter_In.
  destruct (filter cond rows) eqn:E; [discriminate|].
  simpl in H; injection H as ->; left; reflexivity.
Qed.

End QueryFacts.

(** ** Single statements *)

Lemma statement_ok {A} (q : Tick -> Db -> A * Db) (w : World) :
  failure (env w (pc w)) = None ->
  statement q w
  = (inr (fst (q (env w (pc w)) (db w))),
     mkWorld (snd (q (env w (pc w)) (db w))) (env w) (S (pc w))).
Proof.
  intros H; unfold statement; rewrite H.
  destruct (q (env w (pc w)) (db w)); reflexivity.
Qed.

Lemma statement_rejected {A} (q : Tick -> Db -> A * Db) (w : World) msg :
  failure (env w (pc w)) = Some msg ->
  statement q w = (inl (StorageError msg), mkWorld (db w) (env w) (S (pc w))).
Proof.
  intros H; unfold statement; rewrite H; reflexivity.
Qed.

(** ** Single-row reads *)

(** C9.  A read of a single row by an id that no stored row carries is
    answered with the absent value, not with an error: [getUser] and
    [getProduct] both return [undefined] and leave the store as it was. *)
Theorem absent_row_reads_as_undefined (w : World) (id : string) :
  failure (env w (pc w)) = None ->
  ((forall u, In u (users_rows (db w)) -> users.id u <> id) ->
   storage.getUser id w = (inr None, mkWorld (db w) (env w) (S (pc w))))
  /\
  ((forall p, In p (products_rows (db w)) -> products.id p <> id) ->
   storage.getProduct id w = (inr None, mkWorld (db w) (env w) (S (pc w)))).
Proof.
  intros Hok; split; intros Habsent.
  - unfold storage.getUser; rewrite statement_ok by exact Hok; simpl.
    rewrite where_none; [reflexivity|].
    intros u Hu; apply String.eqb_neq, Habsent, Hu.
  - unfold storage.getProduct; rewrite statement_ok by exact Hok; simpl.
    rewrite where_none; [reflexivity|].
    intros p Hp; apply String.eqb_neq, Habsent, Hp.
Qed.

Lemma absent_row_reads_as_undefined_witness :
  storage.getUser "noa" (mkWorld (salon_db 100) calm_env 0)
  = (inr None, mkWorld (salon_db 100) calm_env 1)
  /\ storage.getProduct "p-9" (mkWorld (salon_db 100) calm_env 0)
     = (inr None, mkWorld (salon_db 100) calm_env 1).
Proof.
  destruct (absent_row_reads_as_undefined
              (mkWorld (salon_db 100) calm_env 0) "noa" eq_refl) as [Hu _].
  destruct (absent_row_reads_as_undefined
              (mkWorld (salon_db 100) calm_env 0) "p-9" eq_refl) as [_ Hp].
  split.
  - apply Hu; simpl; intros u [<-|[]]; discriminate.
  - apply Hp; simpl; intros p [<-|[<-|[]]]; discriminate.
Defined.

(** ** Appointment status *)

(** C10.  [updateAppointmentStatus id s] on a stored appointment writes
    exactly the string [s], whatever it is, as the status of every row with
    that id, keeps every other column of those rows, keeps every other
    appointment and every other table, and returns the rewritten row. *)
Theorem status_update_frame (w : World) (id s : string) (a : Appointment) :
  failure (env w (pc w)) = None ->
  first_row (where_ (fun x => String.eqb (appointments.id x) id)
                    (appointments_rows (db w))) = Some a ->
  exists a' rows',
    storage.updateAppointmentStatus id s w
    = (inr (Some a'),
       mkWorld (set_appointments rows' (db w)) (env w) (S (pc w)))
    /\ a' = storage.set_status s a
    /\ List.length rows' = List.length (appointments_rows (db w))
    /\ forall i x, nth_error (appointments_rows (db w)) i = Some x ->
         exists x', nth_error rows' i = Some x'
           /\ (appointments.id x <> id -> x' = x)
           /\ (appointments.id x = id ->
                 appointments.status x' = s
                 /\ appointments.id x' = appointments.id x
                 /\ appointments.userId x' = appointments.userId x
                 /\ appointments.serviceTitle x' = appointments.serviceTitle x
                 /\ appointments.appointmentDate x'
                    = appointments.appointmentDate x
                 /\ appointments.coinsEarned x' = appointments.coinsEarned x
                 /\ appointments.createdAt x' = appointments.createdAt x).
Proof.
  intros Hok Hfirst.
  unfold storage.updateAppointmentStatus.
  rewrite statement_ok by exact Hok; simpl.
  rewrite first_row_returning, Hfirst; simpl.
  eexists; eexists; split; [reflexivity|].
  split; [reflexivity|].
  split; [unfold update_where; apply length_map|].
  intros i x Hx.
  rewrite update_where_nth, Hx; simpl.
  destruct (String.eqb_spec (appointments.id x) id) as [E|E].
  - exists (storage.set_status s x); split; [reflexivity|].
    split; [intros N; contradiction|].
    intros _; simpl; repeat split; reflexivity.
  - exists x; split; [reflexivity|].
    split; [reflexivity|intros N; contradiction].
Qed.

Lemma status_update_frame_witness :
  exists a' rows',
    storage.updateAppointmentStatus "a-1" "whatever"
      (mkWorld (salon_db 100) calm_env 0)
    = (inr (Some a'),
       mkWorld (set_appointments rows' (salon_db 100)) calm_env 1)
    /\ a' = storage.set_status "whatever" haircut
    /\ nth_error rows' 1 = Some colouring.
Proof.
  destruct (status_update_frame (mkWorld (salon_db 100) calm_env 0)
              "a-1" "whatever" haircut eq_refl eq_refl)
    as (a' & rows' & Hrun & Ha & _ & Hframe).
  exists a', rows'; split; [exact Hrun|]; split; [exact Ha|].
  destruct (Hframe 1%nat colouring eq_refl) as (x' & Hx' & Hother & _).
  rewrite Hx'; f_equal; apply Hother; discriminate.
Defined.

(** ** Products *)

(** C7.  A stored product whose [isActive] is false is not among the rows
    [getProducts] returns, which are exactly the stored products whose
    [isActive] is true; [getProduct] by its id still returns it.  Product
    ids are the primary key, hence pairwise distinct. *)
Theorem inactive_product_hidden_not_lost (w : World) (P : Product) :
  failure (env w (pc w)) = None ->
  NoDup (map products.id (products_rows (db w))) ->
  In P (products_rows (db w)) ->
  products.isActive P = false ->
  (exists listed,
     storage.getProducts w
     = (inr listed, mkWorld (db w) (env w) (S (pc w)))
     /\ ~ In P listed
     /\ Permutation
          (where_ (fun p => Bool.eqb (products.isActive p) true)
                  (products_rows (db w)))
          listed
     /\ forall q, In q listed <->
          In q (products_rows (db w)) /\ products.isActive q = true)
  /\ storage.getProduct (products.id P) w
     = (inr (Some P), mkWorld (db w) (env w) (S (pc w))).
Proof.
  intros Hok Hkey HP Hinactive; split.
  - unfold storage.getProducts; rewrite statement_ok by exact Hok; simpl.
    eexists; split; [reflexivity|].
    assert (Hlisted : forall q,
      In q (orderBy_desc products.createdAt
              (where_ (fun p => Bool.eqb (products.isActive p) true)
                      (products_rows (db w))))
      <-> In q (products_rows (db w)) /\ products.isActive q = true).
    { intros q; rewrite orderBy_desc_In; unfold where_; rewrite filter_In.
      rewrite Bool.eqb_true_iff; reflexivity. }
    split; [|split; [apply orderBy_desc_perm|exact Hlisted]].
    intros Hin; apply Hlisted in Hin; destruct Hin as [_ Hact]; congruence.
  - unfold storage.getProduct; rewrite statement_ok by exact Hok; simpl.
    f_equal; f_equal.
    revert Hkey HP; generalize (products_rows (db w)) as rows.
    induction rows as [|q rest IH]; simpl; intros Hkey HP; [contradiction|].
    inversion Hkey as [|? ? Hfresh Hrest]; subst.
    destruct HP as [->|HP].
    + rewrite String.eqb_refl; reflexivity.
    + destruct (String.eqb_spec (products.id q) (products.id P)) as [E|E].
      * exfalso; apply Hfresh; rewrite E; apply in_map; exact HP.
      * apply IH; assumption.
Qed.

Lemma inactive_product_hidden_not_lost_witness :
  (exists listed,
     storage.getProducts (mkWorld (salon_db 100) calm_env 0)
     = (inr listed, mkWorld (salon_db 100) calm_env 1)
     /\ ~ In old_comb listed
     /\ Permutation [shampoo] listed
     /\ forall q, In q listed <->
          In q [shampoo; old_comb] /\ products.isActive q = true)
  /\ storage.getProduct "p-2" (mkWorld (salon_db 100) calm_env 0)
     = (inr (Some old_comb), mkWorld (salon_db 100) calm_env 1).
Proof.
  apply (inactive_product_hidden_not_lost
           (mkWorld (salon_db 100) calm_env 0) old_comb).
  - reflexivity.
  - simpl; repeat constructor; simpl; intuition discriminate.
  - simpl; right; left; reflexivity.
  - reflexivity.
Defined.

(** ** List queries *)

Lemma ordered_answer {A} (table : Db -> list A) (cond : A -> bool)
  (key : A -> Z) (w : World) :
  failure (env w (pc w)) = None ->
  answers_by
    (statement (fun _ d => (orderBy_desc key (where_ cond (table d)), d)))
    (table (db w)) cond key w.
Proof.
  intros Hok; unfold answers_by.
  rewrite statement_ok by exact Hok; simpl.
  eexists; split; [reflexivity|]; split.
  - apply orderBy_desc_perm.
  - apply orderBy_desc_sorted.
Qed.

Lemma where_every_row {A} (rows : list A) : where_ every_row rows = rows.
Proof.
  unfold where_, every_row; induction rows as [|x l IH]; simpl;
    [reflexivity|f_equal; exact IH].
Qed.

Lemma ordered_answer_all {A} (table : Db -> list A) (key : A -> Z) (w : World) :
  failure (env w (pc w)) = None ->
  answers_by (statement (fun _ d => (orderBy_desc key (table d), d)))
             (table (db w)) every_row key w.
Proof.
  intros Hok; unfold answers_by.
  rewrite statement_ok by exact Hok; simpl.
  eexists; split; [reflexivity|]; split.
  - rewrite where_every_row; apply orderBy_desc_perm.
  - apply orderBy_desc_sorted.
Qed.

(** C8.  Every list query answers with its rows in a fixed order: by
    creation time, newest first, for all appointments, the active products,
    a user's orders, all orders, a user's messages, all messages and a
    user's coin transactions; by appointment date, latest first, for a
    user's appointments. *)
Theorem list_queries_newest_first (w : World) (userId : string) :
  failure (env w (pc w)) = None ->
  answers_by (storage.getUserAppointments userId) (appointments_rows (db w))
    (fun a => String.eqb (appointments.userId a) userId)
    appointments.appointmentDate w
  /\ answers_by storage.getAllAppointments (appointments_rows (db w))
       every_row appointments.createdAt w
  /\ answers_by storage.getProducts (products_rows (db w))
       (fun p => Bool.eqb (products.isActive p) true) products.createdAt w
  /\ answers_by (storage.getUserOrders userId) (orders_rows (db w))
       (fun o => String.eqb (orders.userId o) userId) orders.createdAt w
  /\ answers_by storage.getAllOrders (orders_rows (db w))
       every_row orders.createdAt w
  /\ answers_by (storage.getUserMessages userId) (messages_rows (db w))
       (fun m => String.eqb (messages.userId m) userId) messages.createdAt w
  /\ answers_by storage.getAdminMessages (messages_rows (db w))
       every_row messages.createdAt w
  /\ answers_by (storage.getUserCoinTransactions userId)
       (coinTransactions_rows (db w))
       (fun c => String.eqb (coinTransactions.userId c) userId)
       coinTransactions.createdAt w.
Proof.
  intros Hok.
  repeat split;
    first [ apply (ordered_answer appointments_rows), Hok
          | apply (ordered_answer_all appointments_rows), Hok
          | apply (ordered_answer products_rows), Hok
          | apply (ordered_answer orders_rows), Hok
          | apply (ordered_answer_all orders_rows), Hok
          | apply (ordered_answer messages_rows), Hok
          | apply (ordered_answer_all messages_rows), Hok
          | apply (ordered_answer coinTransactions_rows), Hok ].
Qed.

Lemma list_queries_newest_first_witness :
  answers_by (storage.getUserAppointments "dana") [haircut; colouring]
    (fun a => String.eqb (appointments.userId a) "dana")
    appointments.appointmentDate (mkWorld (salon_db 100) calm_env 0)
  /\ fst (storage.getUserAppointments "dana" (mkWorld (salon_db 100) calm_env 0))
     = inr [colouring; haircut].
Proof.
  split; [|reflexivity].
  apply (list_queries_newest_first (mkWorld (salon_db 100) calm_env 0) "dana").
  reflexivity.
Defined.

(** ** Balance adjustment *)

(** C4 (amended).  [updateUserCoins userId amount] is a single storage
    statement that adds [amount] to the balance stored in every row with
    that id, refreshes that row's update time, keeps every other column and
    every other row, and returns the rewritten row: the row now stored, with
    the new balance, the new update time and every other column as it
    was.  When no row carries the
    id it changes nothing and returns the absent value; it raises no
    error. *)
Theorem balance_adjusted_by_one_statement
  (w : World) (userId : string) (amount : Z) :
  failure (env w (pc w)) = None ->
  exists updated rows',
    storage.updateUserCoins userId amount w
    = (inr updated, mkWorld (set_users rows' (db w)) (env w) (S (pc w)))
    /\ List.length rows' = List.length (users_rows (db w))
    /\ (forall i u, nth_error (users_rows (db w)) i = Some u ->
          exists u', nth_error rows' i = Some u'
            /\ (users.id u <> userId -> u' = u)
            /\ (users.id u = userId ->
                  users.coinBalance u' = users.coinBalance u + amount
                  /\ users.updatedAt u' = now (env w (pc w))
                  /\ users.id u' = users.id u
                  /\ users.email u' = users.email u
                  /\ users.firstName u' = users.firstName u
                  /\ users.lastName u' = users.lastName u
                  /\ users.profileImageUrl u' = users.profileImageUrl u
                  /\ users.createdAt u' = users.createdAt u))
    /\ (forall u,
          first_row (where_ (fun x => String.eqb (users.id x) userId)
                            (users_rows (db w))) = Some u ->
          exists u', updated = Some u'
            /\ users.id u' = userId
            /\ users.coinBalance u' = users.coinBalance u + amount
            /\ users.updatedAt u' = now (env w (pc w))
            /\ users.email u' = users.email u
            /\ users.firstName u' = users.firstName u
            /\ users.lastName u' = users.lastName u
            /\ users.profileImageUrl u' = users.profileImageUrl u
            /\ users.createdAt u' = users.createdAt u
            /\ In u' rows')
    /\ ((forall u, In u (users_rows (db w)) -> users.id u <> userId) ->
          updated = None /\ rows' = users_rows (db w)).
Proof.
  intros Hok.
  unfold storage.updateUserCoins.
  rewrite statement_ok by exact Hok; simpl.
  eexists; eexists; split; [reflexivity|].
  split; [unfold update_where; apply length_map|].
  split; [|split].
  - intros i u Hu.
    rewrite update_where_nth, Hu; simpl.
    destruct (String.eqb_spec (users.id u) userId) as [E|E].
    + eexists; split; [reflexivity|].
      split; [intros N; contradiction|].
      intros _; simpl; repeat split; reflexivity.
    + exists u; split; [reflexivity|].
      split; [reflexivity|intros N; contradiction].
  - intros u Hu.
    rewrite first_row_returning, Hu; simpl.
    eexists; split; [reflexivity|]; simpl.
    apply first_row_in in Hu; destruct Hu as [Hin Hcond].
    pose proof Hcond as Hid; apply String.eqb_eq in Hid.
    split; [exact Hid|].
    do 7 (split; [reflexivity|]).
    apply in_map_iff; exists u; split; [|exact Hin].
    rewrite Hcond; reflexivity.
  - intros Habsent.
    assert (Hnone : forall u, In u (users_rows (db w)) ->
                      String.eqb (users.id u) userId = false)
      by (intros u Hu; apply String.eqb_neq, Habsent, Hu).
    rewrite returning_none by exact Hnone.
    rewrite update_where_none by exact Hnone.
    split; reflexivity.
Qed.

Lemma balance_adjusted_by_one_statement_witness :
  exists updated rows',
    storage.updateUserCoins "dana" 20 (mkWorld (salon_db 100) calm_env 0)
    = (inr updated, mkWorld (set_users rows' (salon_db 100)) calm_env 1)
    /\ option_map users.coinBalance updated = Some 120.
Proof.
  destruct (balance_adjusted_by_one_statement
              (mkWorld (salon_db 100) calm_env 0) "dana" 20 eq_refl)
    as (updated & rows' & Hrun & _ & _ & Hret & _).
  exists updated, rows'; split; [exact Hrun|].
  destruct (Hret (dana 100) eq_refl) as (u' & -> & _ & Hbal & _).
  simpl; rewrite Hbal; reflexivity.
Defined.

(** C4, as stated, fails: adjusting the balance of an id that no user
    carries is not an error; the call resolves to the absent value and the
    store is untouched. *)
Lemma adjusting_unknown_user_is_no_error :
  storage.updateUserCoins "noa" 5 (mkWorld (salon_db 100) calm_env 0)
  = (inr None, mkWorld (salon_db 100) calm_env 1)
  /\ forall e, fst (storage.updateUserCoins "noa" 5
                      (mkWorld (salon_db 100) calm_env 0)) <> inl e.
Proof.
  split; [reflexivity|intros e; discriminate].
Qed.

(** ** Upsert *)

Lemma conflict_set_again (userData : UpsertUser.t) (t1 t2 : Tick) (u : User) :
  storage.conflict_set userData t2 (storage.conflict_set userData t1 u)
  = with_updatedAt (now t2) (storage.conflict_set userData t1 u).
Proof.
  unfold storage.conflict_set, with_updatedAt, orElse; simpl.
  destruct (UpsertUser.email userData), (UpsertUser.firstName userData),
    (UpsertUser.lastName userData), (UpsertUser.profileImageUrl userData),
    (UpsertUser.coinBalance userData); reflexivity.
Qed.

Lemma conflict_set_inserted (userData : UpsertUser.t) (t1 t2 : Tick) :
  storage.conflict_set userData t2 (storage.inserted_user userData t1)
  = with_updatedAt (now t2) (storage.inserted_user userData t1).
Proof.
  unfold storage.conflict_set, storage.inserted_user, with_updatedAt, orElse;
    simpl.
  destruct (UpsertUser.email userData), (UpsertUser.firstName userData),
    (UpsertUser.lastName userData), (UpsertUser.profileImageUrl userData),
    (UpsertUser.coinBalance userData); reflexivity.
Qed.

(** C6.  [upsertUser] called twice with the same data: the second call
    returns the row the first call returned with only its update time
    refreshed, creates no row, and in the table changes nothing but the
    update time of the rows with that id. *)
Theorem upsert_twice_same_row (w : World) (userData : UpsertUser.t) :
  failure (env w (pc w)) = None ->
  failure (env w (S (pc w))) = None ->
  exists u1 w1 u2 w2,
    storage.upsertUser userData w = (inr u1, w1)
    /\ storage.upsertUser userData w1 = (inr u2, w2)
    /\ u2 = with_updatedAt (now (env w (S (pc w)))) u1
    /\ users.id u1 = UpsertUser.id userData
    /\ users_rows (db w2)
       = update_where
           (fun u => String.eqb (users.id u) (UpsertUser.id userData))
           (with_updatedAt (now (env w (S (pc w)))))
           (users_rows (db w1))
    /\ set_users (users_rows (db w1)) (db w2) = db w1.
Proof.
  intros Hok1 Hok2.
  set (conflict := fun u => String.eqb (users.id u) (UpsertUser.id userData)).
  unfold storage.upsertUser; fold conflict.
  do 4 eexists.
  split; [apply statement_ok, Hok1|].
  split; [apply statement_ok; simpl; exact Hok2|].
  simpl.
  destruct (first_row (where_ conflict (users_rows (db w)))) as [stored|] eqn:E;
    simpl.
  - (* the id is taken: both calls update *)
    rewrite first_row_update
      by (intros x _; unfold conflict; simpl; apply String.eqb_refl).
    rewrite E; simpl.
    split; [apply conflict_set_again|].
    split; [reflexivity|].
    split; [|reflexivity].
    apply update_where_ext; intros y Hy Hcond.
    apply update_where_In in Hy; destruct Hy as (x & Hx & ->).
    destruct (conflict x) eqn:Ex; [apply conflict_set_again|congruence].
  - (* the id is free: the first call inserts, the second updates *)
    pose proof (first_row_none _ _ E) as Hfree.
    assert (Hwhere : where_ conflict
                       (users_rows (db w)
                        ++ [storage.inserted_user userData (env w (pc w))])
                     = [storage.inserted_user userData (env w (pc w))]).
    { unfold where_; rewrite filter_app.
      fold (where_ conflict (users_rows (db w))).
      rewrite where_none by exact Hfree; simpl.
      unfold conflict at 1; simpl; rewrite String.eqb_refl; reflexivity. }
    rewrite Hwhere; simpl.
    split; [apply conflict_set_inserted|].
    split; [reflexivity|].
    split; [|reflexivity].
    apply update_where_ext; intros y Hy Hcond.
    apply in_app_or in Hy; destruct Hy as [Hy|[<-|[]]].
    + rewrite (Hfree y Hy) in Hcond; discriminate.
    + apply conflict_set_inserted.
Qed.

Lemma upsert_twice_same_row_witness :
  exists u1 w1 u2 w2,
    storage.upsertUser (UpsertUser.mk "noa" None (Some "Noa") None None None)
                       (mkWorld (salon_db 100) calm_env 0) = (inr u1, w1)
    /\ storage.upsertUser (UpsertUser.mk "noa" None (Some "Noa") None None None)
                          w1 = (inr u2, w2)
    /\ u2 = with_updatedAt 1001 u1.
Proof.
  destruct (upsert_twice_same_row
              (mkWorld (salon_db 100) calm_env 0)
              (UpsertUser.mk "noa" None (Some "Noa") None None None)
              eq_refl eq_refl)
    as (u1 & w1 & u2 & w2 & H1 & H2 & H3 & _).
  exists u1, w1, u2, w2; repeat split; assumption.
Defined.

(** ** Stepping through a handler *)

Lemma bind_ok {A B} (m : M A) (k : A -> M B) w a w' :
  m w = (inr a, w') -> bind m k w = k a w'.
Proof. intros H; unfold bind; rewrite H; reflexivity. Qed.

Lemma bind_thrown {A B} (m : M A) (k : A -> M B) w e w' :
  m w = (inl e, w') -> bind m k w = (inl e, w').
Proof. intros H; unfold bind; rewrite H; reflexivity. Qed.

Lemma try_ok {A} (body : M A) handler w a w' :
  body w = (inr a, w') -> try_catch body handler w = (inr a, w').
Proof. intros H; unfold try_catch; rewrite H; reflexivity. Qed.

Lemma try_caught {A} (body : M A) handler w e w' :
  body w = (inl e, w') -> try_catch body handler w = handler e w'.
Proof. intros H; unfold try_catch; rewrite H; reflexivity. Qed.

Lemma parse_rejected {A B} (r : string + A) (k : A -> M B) msg w :
  r = inl msg -> bind (parse r) k w = (inl (ZodError msg), w).
Proof. intros ->; reflexivity. Qed.

Lemma parse_accepted {A B} (r : string + A) (k : A -> M B) data w :
  r = inr data -> bind (parse r) k w = k data w.
Proof. intros ->; reflexivity. Qed.

(** The next statement of a handler succeeds. *)
Ltac next_ok H :=
  erewrite bind_ok;
    [|apply statement_ok; cbn [db env pc]; apply H];
  cbn [fst snd db env pc].

(** ** Validation *)

(** C5.  A request whose body the validator rejects is answered with
    status 400 and the validator's message before any storage statement is
    issued: the world after the handler is the world before it, for all four
    writing handlers. *)
Theorem rejected_input_writes_nothing {Body : Type}
  (insertAppointmentSchema : Body -> string -> string + InsertAppointment.t)
  (insertProductSchema : Body -> string + InsertProduct.t)
  (insertOrderSchema : Body -> string -> string + InsertOrder.t)
  (insertMessageSchema : Body -> string -> string -> string + InsertMessage.t)
  (userId : string) (body : Body) (msg : string) (w : World) :
  (insertAppointmentSchema body userId = inl msg ->
   POST_api_appointments insertAppointmentSchema userId body w
   = (inr (MessageJson 400
             (message_or (ZodError msg) "Failed to create appointment")), w))
  /\
  (insertProductSchema body = inl msg ->
   POST_api_admin_products insertProductSchema body w
   = (inr (MessageJson 400
             (message_or (ZodError msg) "Failed to create product")), w))
  /\
  (insertOrderSchema body userId = inl msg ->
   POST_api_orders insertOrderSchema userId body w
   = (inr (MessageJson 400
             (message_or (ZodError msg) "Failed to create order")), w))
  /\
  (insertMessageSchema body userId "customer" = inl msg ->
   POST_api_messages insertMessageSchema userId body w
   = (inr (MessageJson 400
             (message_or (ZodError msg) "Failed to send message")), w)).
Proof.
  repeat split; intros Hrejected.
  - unfold POST_api_appointments.
    rewrite (try_caught _ _ _ _ _ (parse_rejected _ _ _ _ Hrejected)).
    reflexivity.
  - unfold POST_api_admin_products.
    rewrite (try_caught _ _ _ _ _ (parse_rejected _ _ _ _ Hrejected)).
    reflexivity.
  - unfold POST_api_orders.
    rewrite (try_caught _ _ _ _ _ (parse_rejected _ _ _ _ Hrejected)).
    reflexivity.
  - unfold POST_api_messages.
    rewrite (try_caught _ _ _ _ _ (parse_rejected _ _ _ _ Hrejected)).
    reflexivity.
Qed.

Lemma rejected_input_writes_nothing_witness :
  POST_api_orders exampleOrderSchema "dana" (OrderBody "Shampoo" 40 (-5))
                  (mkWorld (salon_db 100) calm_env 0)
  = (inr (MessageJson 400 "coinsUsed must not be negative"),
     mkWorld (salon_db 100) calm_env 0).
Proof.
  destruct (rejected_input_writes_nothing
              exampleAppointmentSchema exampleProductSchema
              exampleOrderSchema exampleMessageSchema
              "dana" (OrderBody "Shampoo" 40 (-5))
              "coinsUsed must not be negative"
              (mkWorld (salon_db 100) calm_env 0))
    as (_ & _ & Horder & _).
  apply Horder; reflexivity.
Defined.

(** ** Redemption at checkout *)

Lemma coinBalance_of_adjusted (d : Db) (U : string) (amount : Z) (t : Tick)
  (rest : Db) :
  users_rows rest
  = update_where (fun u => String.eqb (users.id u) U)
                 (storage.add_coins amount t) (users_rows d) ->
  coinBalance_of U rest = option_map (fun b => b + amount) (coinBalance_of U d).
Proof.
  intros Hrows; unfold coinBalance_of; rewrite Hrows.
  rewrite first_row_update by (intros x Hx; exact Hx).
  destruct (first_row _); reflexivity.
Qed.

(** C3.  A user whose balance is [B] (not negative) places an order, and no
    storage statement is rejected.  With [coinsUsed = B] the order is created
    and the balance is 0 afterwards.  With [coinsUsed = B + 1] the request is
    refused with status 400 and the insufficient-coins message, after one
    read and no write: users, ledger and every other table are as before. *)
Theorem redemption_boundary {Body : Type}
  (insertOrderSchema : Body -> string -> string + InsertOrder.t)
  (userId : string) (bodyAll bodyOver : Body)
  (dataAll dataOver : InsertOrder.t) (u : User) (w : World) :
  never_fails w ->
  first_row (where_ (fun x => String.eqb (users.id x) userId)
                    (users_rows (db w))) = Some u ->
  0 <= users.coinBalance u ->
  insertOrderSchema bodyAll userId = inr dataAll ->
  InsertOrder.coinsUsed dataAll = users.coinBalance u ->
  insertOrderSchema bodyOver userId = inr dataOver ->
  InsertOrder.coinsUsed dataOver = users.coinBalance u + 1 ->
  (exists order w',
     POST_api_orders insertOrderSchema userId bodyAll w
     = (inr (Json 200 order), w')
     /\ coinBalance_of userId (db w') = Some 0
     /\ orders.coinsUsed order = users.coinBalance u
     /\ In order (orders_rows (db w')))
  /\ POST_api_orders insertOrderSchema userId bodyOver w
     = (inr (MessageJson 400 insufficient_coins),
        mkWorld (db w) (env w) (S (pc w))).
Proof.
  intros Hnf Hfirst Hpos HparseAll HuseAll HparseOver HuseOver; split.
  - unfold POST_api_orders.
    destruct (Z.ltb_spec 0 (users.coinBalance u)) as [Hsome|Hzero].
    + (* B > 0: read, deduct, log, create *)
      do 2 eexists; split.
      * apply try_ok.
        rewrite (parse_accepted _ _ _ _ HparseAll); cbv zeta.
        rewrite HuseAll.
        replace (0 <? users.coinBalance u) with true
          by (symmetry; apply Z.ltb_lt; exact Hsome).
        unfold storage.getUser; next_ok (Hnf (pc w)).
        rewrite Hfirst, Z.ltb_irrefl.
        unfold storage.updateUserCoins; next_ok (Hnf (S (pc w))).
        unfold storage.addCoinTransaction; next_ok (Hnf (S (S (pc w)))).
        unfold storage.createOrder; next_ok (Hnf (S (S (S (pc w))))).
        reflexivity.
      * cbn [db]; split; [|split].
        -- rewrite (coinBalance_of_adjusted (db w) userId
                      (- users.coinBalance u) (env w (S (pc w))))
             by reflexivity.
           unfold coinBalance_of; rewrite Hfirst; simpl.
           f_equal; lia.
        -- simpl; congruence.
        -- simpl; apply in_or_app; right; left; reflexivity.
    + (* B = 0: nothing to redeem, create *)
      assert (HB : users.coinBalance u = 0) by lia.
      do 2 eexists; split.
      * apply try_ok.
        rewrite (parse_accepted _ _ _ _ HparseAll); cbv zeta.
        rewrite HuseAll, HB; change (0 <? 0) with false; cbv iota.
        unfold storage.createOrder; next_ok (Hnf (pc w)).
        reflexivity.
      * cbn [db]; split; [|split].
        -- unfold coinBalance_of; simpl; rewrite Hfirst; simpl.
           f_equal; exact HB.
        -- simpl; congruence.
        -- simpl; apply in_or_app; right; left; reflexivity.
  - unfold POST_api_orders.
    apply try_ok.
    rewrite (parse_accepted _ _ _ _ HparseOver); cbv zeta.
    rewrite HuseOver.
    replace (0 <? users.coinBalance u + 1) with true
      by (symmetry; apply Z.ltb_lt; lia).
    unfold storage.getUser; next_ok (Hnf (pc w)).
    rewrite Hfirst.
    replace (users.coinBalance u <? users.coinBalance u + 1) with true
      by (symmetry; apply Z.ltb_lt; lia).
    reflexivity.
Qed.

Lemma redemption_boundary_witness :
  (exists order w',
     POST_api_orders exampleOrderSchema "dana" (OrderBody "Shampoo" 40 100)
                     (mkWorld (salon_db 100) calm_env 0)
     = (inr (Json 200 order), w')
     /\ coinBalance_of "dana" (db w') = Some 0
     /\ orders.coinsUsed order = 100
     /\ In order (orders_rows (db w')))
  /\ POST_api_orders exampleOrderSchema "dana" (OrderBody "Shampoo" 40 101)
                     (mkWorld (salon_db 100) calm_env 0)
     = (inr (MessageJson 400 insufficient_coins),
        mkWorld (salon_db 100) calm_env 1).
Proof.
  apply (redemption_boundary exampleOrderSchema "dana"
           (OrderBody "Shampoo" 40 100) (OrderBody "Shampoo" 40 101)
           (InsertOrder.mk "dana" "Shampoo" 40 100)
           (InsertOrder.mk "dana" "Shampoo" 40 101)
           (dana 100) (mkWorld (salon_db 100) calm_env 0)).
  - intros n; reflexivity.
  - reflexivity.
  - simpl; lia.
  - reflexivity.
  - reflexivity.
  - reflexivity.
  - reflexivity.
Defined.

(** ** The two multi-step coin units *)

(** C2 (amended).  Neither unit is rolled back.  When a booking's balance
    adjustment is rejected after the appointment and the ledger entry were
    written, both stay in the store and the balance is as before.  When a
    checkout's order insert is rejected after the redemption, the deducted
    balance and the ledger entry of the redemption stay and no order exists.
    Either way the handler answers with status 400 and the error's
    message. *)
Theorem later_failure_keeps_earlier_writes {Body : Type}
  (insertAppointmentSchema : Body -> string -> string + InsertAppointment.t)
  (insertOrderSchema : Body -> string -> string + InsertOrder.t)
  (userId : string) (bodyA bodyO : Body)
  (dataA : InsertAppointment.t) (dataO : InsertOrder.t) (u : User)
  (wA wO : World) (msgA msgO : string) :
  (* a booking whose third statement, the balance adjustment, is rejected *)
  insertAppointmentSchema bodyA userId = inr dataA ->
  failure (env wA (pc wA)) = None ->
  failure (env wA (S (pc wA))) = None ->
  failure (env wA (S (S (pc wA)))) = Some msgA ->
  (* a checkout whose fourth statement, the order insert, is rejected *)
  insertOrderSchema bodyO userId = inr dataO ->
  0 < InsertOrder.coinsUsed dataO ->
  first_row (where_ (fun x => String.eqb (users.id x) userId)
                    (users_rows (db wO))) = Some u ->
  InsertOrder.coinsUsed dataO <= users.coinBalance u ->
  failure (env wO (pc wO)) = None ->
  failure (env wO (S (pc wO))) = None ->
  failure (env wO (S (S (pc wO)))) = None ->
  failure (env wO (S (S (S (pc wO))))) = Some msgO ->
  (exists appointment entry w',
     POST_api_appointments insertAppointmentSchema userId bodyA wA
     = (inr (MessageJson 400
               (message_or (StorageError msgA) "Failed to create appointment")),
        w')
     /\ appointments_rows (db w')
        = (appointments_rows (db wA) ++ [appointment])%list
     /\ coinTransactions_rows (db w')
        = (coinTransactions_rows (db wA) ++ [entry])%list
     /\ coinTransactions.userId entry = userId
     /\ coinTransactions.amount entry = InsertAppointment.coinsEarned dataA
     /\ coinTransactions.relatedId entry = Some (appointments.id appointment)
     /\ users_rows (db w') = users_rows (db wA))
  /\
  (exists entry w',
     POST_api_orders insertOrderSchema userId bodyO wO
     = (inr (MessageJson 400
               (message_or (StorageError msgO) "Failed to create order")),
        w')
     /\ coinBalance_of userId (db w')
        = Some (users.coinBalance u - InsertOrder.coinsUsed dataO)
     /\ coinTransactions_rows (db w')
        = (coinTransactions_rows (db wO) ++ [entry])%list
     /\ coinTransactions.userId entry = userId
     /\ coinTransactions.amount entry = - InsertOrder.coinsUsed dataO
     /\ orders_rows (db w') = orders_rows (db wO)).
Proof.
  intros HparseA HA0 HA1 HA2 HparseO Hused Hfirst Hfunds HO0 HO1 HO2 HO3.
  split.
  - do 3 eexists; split.
    + unfold POST_api_appointments.
      erewrite try_caught; [reflexivity|].
      rewrite (parse_accepted _ _ _ _ HparseA).
      unfold storage.createAppointment; next_ok HA0.
      unfold storage.addCoinTransaction; next_ok HA1.
      unfold storage.updateUserCoins.
      erewrite bind_thrown; [reflexivity|].
      apply statement_rejected; exact HA2.
    + cbn; repeat split; reflexivity.
  - do 2 eexists; split.
    + unfold POST_api_orders.
      erewrite try_caught; [reflexivity|].
      rewrite (parse_accepted _ _ _ _ HparseO); cbv zeta.
      replace (0 <? InsertOrder.coinsUsed dataO) with true
        by (symmetry; apply Z.ltb_lt; exact Hused).
      unfold storage.getUser; next_ok HO0.
      rewrite Hfirst.
      replace (users.coinBalance u <? InsertOrder.coinsUsed dataO) with false
        by (symmetry; apply Z.ltb_ge; exact Hfunds).
      unfold storage.updateUserCoins; next_ok HO1.
      unfold storage.addCoinTransaction; next_ok HO2.
      unfold storage.createOrder.
      erewrite bind_thrown; [reflexivity|].
      apply statement_rejected; exact HO3.
    + cbn [db]; split.
      * rewrite (coinBalance_of_adjusted (db wO) userId
                   (- InsertOrder.coinsUsed dataO) (env wO (S (pc wO))))
          by reflexivity.
        unfold coinBalance_of; rewrite Hfirst; simpl.
        f_equal.
      * cbn; repeat split; reflexivity.
Qed.

Lemma later_failure_keeps_earlier_writes_witness :
  (exists w',
     snd (POST_api_appointments exampleAppointmentSchema "dana"
            (AppointmentBody "Haircut" 5000 20)
            (mkWorld fresh_db (failing_env 2) 0)) = w'
     /\ users_rows (db w') = [dana 0]
     /\ List.length (coinTransactions_rows (db w')) = 1%nat)
  /\
  (exists w',
     snd (POST_api_orders exampleOrderSchema "dana"
            (OrderBody "Shampoo" 40 50)
            (mkWorld (salon_db 100) (failing_env 3) 0)) = w'
     /\ coinBalance_of "dana" (db w') = Some 50
     /\ orders_rows (db w') = []).
Proof.
  destruct (later_failure_keeps_earlier_writes
              exampleAppointmentSchema exampleOrderSchema "dana"
              (AppointmentBody "Haircut" 5000 20) (OrderBody "Shampoo" 40 50)
              (InsertAppointment.mk "dana" "Haircut" 5000 20 "created")
              (InsertOrder.mk "dana" "Shampoo" 40 50)
              (dana 100)
              (mkWorld fresh_db (failing_env 2) 0)
              (mkWorld (salon_db 100) (failing_env 3) 0)
              "connection terminated" "connection terminated"
              eq_refl eq_refl eq_refl eq_refl
              eq_refl eq_refl eq_refl
              ltac:(simpl; lia)
              eq_refl eq_refl eq_refl eq_refl)
    as [(a & e & wA' & HrunA & _ & HledgerA & _ & _ & _ & HusersA)
        (e' & wO' & HrunO & HbalO & _ & _ & _ & HordersO)].
  split.
  - exists wA'; rewrite HrunA; split; [reflexivity|].
    split; [exact HusersA|].
    rewrite HledgerA; reflexivity.
  - exists wO'; rewrite HrunO; split; [reflexivity|].
    split; [exact HbalO|exact HordersO].
Defined.

(** C2, as stated, fails.  A checkout of 50 coins whose order insert is
    rejected leaves the redemption in place: the balance has dropped from
    100 to 50, the ledger has the entry of -50, and there is no order.  A
    booking whose balance adjustment is rejected leaves the ledger entry of
    20 coins in place with the balance still 0. *)
Lemma failed_unit_is_not_rolled_back :
  (let w := mkWorld (salon_db 100) (failing_env 3) 0 in
   let run := POST_api_orders exampleOrderSchema "dana"
                (OrderBody "Shampoo" 40 50) w in
   fst run = inr (MessageJson 400 "connection terminated")
   /\ orders_rows (db (snd run)) = []
   /\ coinBalance_of "dana" (db (snd run)) = Some 50
   /\ map coinTransactions.amount (coinTransactions_rows (db (snd run)))
      = [100; -50]
   /\ db (snd run) <> db w)
  /\
  (let w := mkWorld fresh_db (failing_env 2) 0 in
   let run := POST_api_appointments exampleAppointmentSchema "dana"
                (AppointmentBody "Haircut" 5000 20) w in
   fst run = inr (MessageJson 400 "connection terminated")
   /\ coinBalance_of "dana" (db (snd run)) = Some 0
   /\ map coinTransactions.amount (coinTransactions_rows (db (snd run)))
      = [20]
   /\ db (snd run) <> db w).
Proof.
  split; cbv zeta.
  - repeat split; try reflexivity.
    intros H; apply (f_equal (coinBalance_of "dana")) in H.
    vm_compute in H; discriminate.
  - repeat split; try reflexivity.
    intros H; apply (f_equal coinTransactions_rows) in H.
    vm_compute in H; discriminate.
Qed.

(** ** The ledger invariant *)

Lemma ledger_sum_app (U : string) (ledger : list CoinTransaction)
  (c : CoinTransaction) :
  ledger_sum U (ledger ++ [c])
  = ledger_sum U ledger
    + (if String.eqb (coinTransactions.userId c) U
       then coinTransactions.amount c else 0).
Proof.
  unfold ledger_sum, where_.
  induction ledger as [|x l IH]; simpl.
  - destruct (String.eqb (coinTransactions.userId c) U); simpl; lia.
  - destruct (String.eqb (coinTransactions.userId x) U); simpl;
      rewrite IH; lia.
Qed.

(** Adjusting the balance of [U] by the amount of a new ledger entry of [U]
    keeps every balance equal to its ledger sum. *)
Lemma books_follow_pair (us : list User) (ledger : list CoinTransaction)
  (U : string) (c : CoinTransaction) (t : Tick) :
  (forall u, In u us -> users.coinBalance u = ledger_sum (users.id u) ledger) ->
  coinTransactions.userId c = U ->
  forall u',
    In u' (update_where (fun u => String.eqb (users.id u) U)
             (storage.add_coins (coinTransactions.amount c) t) us) ->
    users.coinBalance u' = ledger_sum (users.id u') (ledger ++ [c]).
Proof.
  intros Hbooks Hc u' Hu'.
  apply update_where_In in Hu'; destruct Hu' as (u & Hu & ->).
  rewrite ledger_sum_app, Hc.
  destruct (String.eqb_spec (users.id u) U) as [E|E]; simpl.
  - rewrite E, String.eqb_refl, <- E, (Hbooks u Hu); reflexivity.
  - replace (String.eqb U (users.id u)) with false
      by (symmetry; apply String.eqb_neq; congruence).
    rewrite (Hbooks u Hu); lia.
Qed.

Lemma booking_keeps_books {Body : Type}
  (insertAppointmentSchema : Body -> string -> string + InsertAppointment.t)
  (userId : string) (body : Body) (w : World) :
  never_fails w -> reconciled (db w) ->
  never_fails (snd (POST_api_appointments insertAppointmentSchema
                      userId body w))
  /\ reconciled (db (snd (POST_api_appointments insertAppointmentSchema
                            userId body w))).
Proof.
  intros Hnf Hbooks.
  unfold POST_api_appointments.
  destruct (insertAppointmentSchema body userId) as [msg|data] eqn:Hparse.
  - rewrite (try_caught _ _ _ _ _ (parse_rejected _ _ _ _ eq_refl)).
    split; assumption.
  - erewrite try_ok.
    2:{ rewrite (parse_accepted _ _ _ _ eq_refl).
        unfold storage.createAppointment; next_ok (Hnf (pc w)).
        unfold storage.addCoinTransaction; next_ok (Hnf (S (pc w))).
        unfold storage.updateUserCoins; next_ok (Hnf (S (S (pc w)))).
        reflexivity. }
    split; [exact Hnf|].
    unfold reconciled; cbn.
    apply (books_follow_pair (users_rows (db w)) (coinTransactions_rows (db w))
             userId
             (coinTransactions.mk (fresh (env w (S (pc w)))) userId
                (InsertAppointment.coinsEarned data) "earned_appointment"
                _ _ (now (env w (S (pc w)))))
             (env w (S (S (pc w)))));
      [exact Hbooks|reflexivity].
Qed.

Lemma checkout_keeps_books {Body : Type}
  (insertOrderSchema : Body -> string -> string + InsertOrder.t)
  (userId : string) (body : Body) (w : World) :
  never_fails w -> reconciled (db w) ->
  never_fails (snd (POST_api_orders insertOrderSchema userId body w))
  /\ reconciled (db (snd (POST_api_orders insertOrderSchema userId body w))).
Proof.
  intros Hnf Hbooks.
  unfold POST_api_orders.
  destruct (insertOrderSchema body userId) as [msg|data] eqn:Hparse.
  - rewrite (try_caught _ _ _ _ _ (parse_rejected _ _ _ _ eq_refl)).
    split; assumption.
  - destruct (0 <? InsertOrder.coinsUsed data) eqn:Hused.
    + destruct (first_row (where_ (fun x => String.eqb (users.id x) userId)
                                  (users_rows (db w)))) as [u|] eqn:Hfirst.
      * destruct (users.coinBalance u <? InsertOrder.coinsUsed data) eqn:Hfunds.
        -- (* insufficient coins *)
           erewrite try_ok.
           2:{ rewrite (parse_accepted _ _ _ _ eq_refl); cbv zeta.
               rewrite Hused.
               unfold storage.getUser; next_ok (Hnf (pc w)).
               rewrite Hfirst, Hfunds; reflexivity. }
           split; assumption.
        -- (* redeem, then create *)
           erewrite try_ok.
           2:{ rewrite (parse_accepted _ _ _ _ eq_refl); cbv zeta.
               rewrite Hused.
               unfold storage.getUser; next_ok (Hnf (pc w)).
               rewrite Hfirst, Hfunds.
               unfold storage.updateUserCoins; next_ok (Hnf (S (pc w))).
               unfold storage.addCoinTransaction;
                 next_ok (Hnf (S (S (pc w)))).
               unfold storage.createOrder;
                 next_ok (Hnf (S (S (S (pc w))))).
               reflexivity. }
           split; [exact Hnf|].
           unfold reconciled; cbn.
           apply (books_follow_pair (users_rows (db w))
                    (coinTransactions_rows (db w)) userId
                    (coinTransactions.mk (fresh (env w (S (S (pc w))))) userId
                       (- InsertOrder.coinsUsed data) "redeemed"
                       _ _ (now (env w (S (S (pc w))))))
                    (env w (S (pc w))));
             [exact Hbooks|reflexivity].
      * (* no such user *)
        erewrite try_ok.
        2:{ rewrite (parse_accepted _ _ _ _ eq_refl); cbv zeta.
            rewrite Hused.
            unfold storage.getUser; next_ok (Hnf (pc w)).
            rewrite Hfirst; reflexivity. }
        split; assumption.
    + (* no coins used *)
      erewrite try_ok.
      2:{ rewrite (parse_accepted _ _ _ _ eq_refl); cbv zeta.
          rewrite Hused.
          unfold storage.createOrder; next_ok (Hnf (pc w)).
          reflexivity. }
      split; [exact Hnf|exact Hbooks].
Qed.

(** C1 (amended).  Starting from a store in which every user's balance
    equals the sum of that user's ledger, and as long as no storage
    statement is rejected, the same holds after every sequence of bookings
    and checkouts, whether each is served, refused for insufficient coins or
    rejected by validation. *)
Theorem ledger_reconciles_while_storage_holds {Body : Type}
  (insertAppointmentSchema : Body -> string -> string + InsertAppointment.t)
  (insertOrderSchema : Body -> string -> string + InsertOrder.t)
  (requests : list CoinRequest) (w : World) :
  never_fails w ->
  reconciled (db w) ->
  reconciled
    (db (serve_all insertAppointmentSchema insertOrderSchema requests w)).
Proof.
  unfold serve_all.
  revert w; induction requests as [|r rest IH]; intros w Hnf Hbooks; simpl.
  - exact Hbooks.
  - destruct r as [userId body|userId body]; simpl.
    + destruct (booking_keeps_books insertAppointmentSchema userId body w
                  Hnf Hbooks) as [Hnf' Hbooks'].
      apply IH; assumption.
    + destruct (checkout_keeps_books insertOrderSchema userId body w
                  Hnf Hbooks) as [Hnf' Hbooks'].
      apply IH; assumption.
Qed.

Lemma fresh_db_reconciled : reconciled fresh_db.
Proof.
  intros u [<-|[]]; reflexivity.
Defined.

Lemma ledger_reconciles_while_storage_holds_witness :
  let w' := serve_all exampleAppointmentSchema exampleOrderSchema
              [BookAppointment "dana" (AppointmentBody "Haircut" 5000 20);
               PlaceOrder "dana" (OrderBody "Shampoo" 40 15);
               PlaceOrder "dana" (OrderBody "Shampoo" 40 6)]
              (mkWorld fresh_db calm_env 0) in
  reconciled (db w')
  /\ coinBalance_of "dana" (db w') = Some 5
  /\ ledger_sum "dana" (coinTransactions_rows (db w')) = 5.
Proof.
  cbv zeta; split; [|split; reflexivity].
  apply (ledger_reconciles_while_storage_holds
           exampleAppointmentSchema exampleOrderSchema).
  - intros n; reflexivity.
  - exact fresh_db_reconciled.
Defined.

(** C1, as stated, fails.  Dana starts with balance 0 and an empty ledger
    and books an appointment worth 20 coins; the ledger entry is written,
    then the balance adjustment is rejected.  Afterwards her ledger sums to
    20 while her balance is still 0. *)
Lemma ledger_drifts_when_adjustment_is_rejected :
  let w := mkWorld fresh_db (failing_env 2) 0 in
  let w' := serve_all exampleAppointmentSchema exampleOrderSchema
              [BookAppointment "dana" (AppointmentBody "Haircut" 5000 20)] w in
  reconciled (db w)
  /\ coinBalance_of "dana" (db w') = Some 0
  /\ ledger_sum "dana" (coinTransactions_rows (db w')) = 20
  /\ ~ reconciled (db w').
Proof.
  cbv zeta; split; [exact fresh_db_reconciled|].
  split; [reflexivity|]; split; [reflexivity|].
  intros Hbooks.
  specialize (Hbooks (dana 0) (or_introl eq_refl)).
  vm_compute in Hbooks; discriminate.
Qed.

(** ** The handlers on the scenarios of the test plan *)

(** The order handler holds no range check of its own on [coinsUsed]: when
    the validator lets a value that is not positive through, the coin steps
    are skipped and the order is inserted with that value. *)
Remark order_without_coins_skips_the_ledger {Body : Type}
  (insertOrderSchema : Body -> string -> string + InsertOrder.t)
  (userId : string) (body : Body) (data : InsertOrder.t) (w : World) :
  insertOrderSchema body userId = inr data ->
  InsertOrder.coinsUsed data <= 0 ->
  failure (env w (pc w)) = None ->
  exists order,
    POST_api_orders insertOrderSchema userId body w
    = (inr (Json 200 order),
       mkWorld (set_orders (orders_rows (db w) ++ [order]) (db w))
               (env w) (S (pc w)))
    /\ orders.coinsUsed order = InsertOrder.coinsUsed data.
Proof.
  intros Hparse Hnone Hok.
  eexists; split.
  - unfold POST_api_orders; apply try_ok.
    rewrite (parse_accepted _ _ _ _ Hparse); cbv zeta.
    replace (0 <? InsertOrder.coinsUsed data) with false
      by (symmetry; apply Z.ltb_ge; exact Hnone).
    unfold storage.createOrder; next_ok Hok.
    reflexivity.
  - reflexivity.
Qed.

(** A user with balance 100 books an appointment worth 20 coins: the
    balance becomes 120 and the ledger gains one entry of +20 of type
    [earned_appointment], related to the new appointment. *)
Example booking_awards_coins :
  let w' := snd (POST_api_appointments exampleAppointmentSchema "dana"
                   (AppointmentBody "Haircut" 5000 20)
                   (mkWorld (salon_db 100) calm_env 0)) in
  coinBalance_of "dana" (db w') = Some 120
  /\ map (fun c => (coinTransactions.amount c, coinTransactions.type c,
                    coinTransactions.relatedId c))
         (coinTransactions_rows (db w'))
     = [(100, "earned_appointment", None);
        (20, "earned_appointment", Some "row-0")].
Proof. split; reflexivity. Qed.

(** The same user then places an order using 50 coins: the balance becomes
    70, the ledger gains one entry of -50 of type [redeemed], and an order
    with [coinsUsed = 50] exists. *)
Example checkout_redeems_coins :
  let w' := serve_all exampleAppointmentSchema exampleOrderSchema
              [BookAppointment "dana" (AppointmentBody "Haircut" 5000 20);
               PlaceOrder "dana" (OrderBody "Shampoo" 40 50)]
              (mkWorld (salon_db 100) calm_env 0) in
  coinBalance_of "dana" (db w') = Some 70
  /\ map (fun c => (coinTransactions.amount c, coinTransactions.type c))
         (coinTransactions_rows (db w'))
     = [(100, "earned_appointment"); (20, "earned_appointment");
        (-50, "redeemed")]
  /\ map orders.coinsUsed (orders_rows (db w')) = [50].
Proof. repeat split; reflexivity. Qed.

(** ** What no run undoes *)

Lemma extends_refl {A} (rows : list A) : extends rows rows.
Proof. exists []; symmetry; apply app_nil_r. Qed.

Lemma extends_trans {A} (l1 l2 l3 : list A) :
  extends l1 l2 -> extends l2 l3 -> extends l1 l3.
Proof.
  intros [a1 ->] [a2 ->]; exists (a1 ++ a2)%list; symmetry; apply app_assoc.
Qed.

Lemma extends_snoc {A} (rows : list A) (x : A) : extends rows (rows ++ [x]).
Proof. exists [x]; reflexivity. Qed.

Lemma extends_map_snoc {A B} (f : A -> B) (rows : list A) (x : A) :
  extends (map f rows) (map f (rows ++ [x])).
Proof. exists [f x]; apply map_app. Qed.

Lemma map_update_where {A B} (key : A -> B) (cond : A -> bool) (f : A -> A)
  (rows : list A) :
  (forall x, cond x = true -> key (f x) = key x) ->
  map key (update_where cond f rows) = map key rows.
Proof.
  intros Hkey; unfold update_where; rewrite map_map.
  apply map_ext; intros x.
  destruct (cond x) eqn:E; [apply Hkey, E|reflexivity].
Qed.

Lemma extends_map_update {A B} (key : A -> B) (cond : A -> bool) (f : A -> A)
  (rows : list A) :
  (forall x, cond x = true -> key (f x) = key x) ->
  extends (map key rows) (map key (update_where cond f rows)).
Proof.
  intros Hkey; rewrite map_update_where by exact Hkey; apply extends_refl.
Qed.

Lemma history_kept_refl (d : Db) : history_kept d d.
Proof. unfold history_kept; repeat split; apply extends_refl. Qed.

Lemma history_kept_trans (d1 d2 d3 : Db) :
  history_kept d1 d2 -> history_kept d2 d3 -> history_kept d1 d3.
Proof.
  intros (A1 & A2 & A3 & A4 & A5 & A6) (B1 & B2 & B3 & B4 & B5 & B6).
  unfold history_kept; repeat split; eapply extends_trans; eassumption.
Qed.

Section Keeps.
Variable R : Db -> Db -> Prop.
Hypothesis R_refl : forall d, R d d.
Hypothesis R_trans : forall d1 d2 d3, R d1 d2 -> R d2 d3 -> R d1 d3.

Lemma keeps_ret {A} (a : A) : keeps R (ret a).
Proof. intros w; apply R_refl. Qed.

Lemma keeps_throw {A} (e : Error) : keeps R (@throw A e).
Proof. intros w; apply R_refl. Qed.

Lemma keeps_parse {A} (r : string + A) : keeps R (parse r).
Proof. destruct r; intros w; apply R_refl. Qed.

Lemma keeps_res_json {A} (payload : A) : keeps R (res_json payload).
Proof. intros w; apply R_refl. Qed.

Lemma keeps_res_status_json {A} code msg : keeps R (@res_status_json A code msg).
Proof. intros w; apply R_refl. Qed.

Lemma keeps_bind {A B} (m : M A) (k : A -> M B) :
  keeps R m -> (forall a, keeps R (k a)) -> keeps R (bind m k).
Proof.
  intros Hm Hk w; unfold bind.
  specialize (Hm w).
  destruct (m w) as [[e|a] w1]; simpl in *; [exact Hm|].
  eapply R_trans; [exact Hm|apply Hk].
Qed.

Lemma keeps_try {A} (body : M A) (handler : Error -> M A) :
  keeps R body -> (forall e, keeps R (handler e)) ->
  keeps R (try_catch body handler).
Proof.
  intros Hb Hh w; unfold try_catch.
  specialize (Hb w).
  destruct (body w) as [[e|a] w1]; simpl in *; [|exact Hb].
  eapply R_trans; [exact Hb|apply Hh].
Qed.

Lemma keeps_statement {A} (q : Tick -> Db -> A * Db) :
  (forall t d, R d (snd (q t d))) -> keeps R (statement q).
Proof.
  intros Hq w; unfold statement.
  destruct (failure (env w (pc w))); simpl; [apply R_refl|].
  specialize (Hq (env w (pc w)) (db w)).
  destruct (q (env w (pc w)) (db w)); exact Hq.
Qed.

End Keeps.

(** The store after a read is the store before it. *)
Ltac history_of_read :=
  apply keeps_statement; [apply history_kept_refl|];
  intros t d; apply history_kept_refl.

(** An insert or an update that keeps ids. *)
Ltac history_of_write :=
  apply keeps_statement; [apply history_kept_refl|];
  intros t d; unfold history_kept; cbn;
  repeat split;
  first [ apply extends_refl
        | apply extends_snoc
        | apply extends_map_snoc
        | apply extends_map_update; intros x Hx; reflexivity ].

Lemma history_kept_by_storage :
  (forall id, keeps history_kept (storage.getUser id))
  /\ (forall userData, keeps history_kept (storage.upsertUser userData))
  /\ (forall a, keeps history_kept (storage.createAppointment a))
  /\ (forall userId, keeps history_kept (storage.getUserAppointments userId))
  /\ keeps history_kept storage.getAllAppointments
  /\ (forall id s, keeps history_kept (storage.updateAppointmentStatus id s))
  /\ keeps history_kept storage.getProducts
  /\ (forall id, keeps history_kept (storage.getProduct id))
  /\ (forall p, keeps history_kept (storage.createProduct p))
  /\ (forall id p, keeps history_kept (storage.updateProduct id p))
  /\ (forall o, keeps history_kept (storage.createOrder o))
  /\ (forall userId, keeps history_kept (storage.getUserOrders userId))
  /\ keeps history_kept storage.getAllOrders
  /\ (forall m, keeps history_kept (storage.createMessage m))
  /\ (forall userId, keeps history_kept (storage.getUserMessages userId))
  /\ keeps history_kept storage.getAdminMessages
  /\ (forall id, keeps history_kept (storage.markMessageAsRead id))
  /\ (forall c, keeps history_kept (storage.addCoinTransaction c))
  /\ (forall userId,
        keeps history_kept (storage.getUserCoinTransactions userId))
  /\ (forall userId amount,
        keeps history_kept (storage.updateUserCoins userId amount)).
Proof.
  repeat match goal with |- _ /\ _ => split end; intros.
  - history_of_read.
  - (* upsert: a new row at the end, or the rows with the id rewritten *)
    apply keeps_statement; [apply history_kept_refl|].
    intros t d; cbn.
    destruct (first_row _); unfold history_kept; cbn; repeat split;
      try apply extends_refl.
    + apply extends_map_update; intros x Hx; cbn.
      symmetry; apply String.eqb_eq, Hx.
    + apply extends_map_snoc.
  - history_of_write.
  - history_of_read.
  - history_of_read.
  - history_of_write.
  - history_of_read.
  - history_of_read.
  - history_of_write.
  - history_of_write.
  - history_of_write.
  - history_of_read.
  - history_of_read.
  - history_of_write.
  - history_of_read.
  - history_of_read.
  - history_of_write.
  - history_of_write.
  - history_of_read.
  - history_of_write.
Qed.

(** One step of a handler body, for any relation the storage methods keep. *)
Ltac history_step :=
  first
    [ apply (keeps_try history_kept history_kept_trans)
    | apply (keeps_bind history_kept history_kept_trans)
    | apply (keeps_parse history_kept history_kept_refl)
    | apply (keeps_res_json history_kept history_kept_refl)
    | apply (keeps_res_status_json history_kept history_kept_refl)
    | apply history_kept_by_storage
    | match goal with
      | |- keeps _ (if ?c then _ else _) => destruct c
      | |- keeps _ (match ?x with Some _ => _ | None => _ end) => destruct x
      end
    | intro ].

Lemma history_kept_by_handlers {Body : Type}
  (insertAppointmentSchema : Body -> string -> string + InsertAppointment.t)
  (insertProductSchema : Body -> string + InsertProduct.t)
  (insertOrderSchema : Body -> string -> string + InsertOrder.t)
  (insertMessageSchema : Body -> string -> string -> string + InsertMessage.t)
  (r : Request) (w : World) :
  history_kept
    (db w)
    (db (respond insertAppointmentSchema insertProductSchema
                 insertOrderSchema insertMessageSchema r w)).
Proof.
  revert w; change (forall w, ?P w) with (forall w : World, P w).
  destruct r; simpl;
    match goal with
    | |- forall w, history_kept (db w) (db (snd (?m w))) =>
        change (keeps history_kept m)
    end.
  - unfold GET_api_auth_user; repeat history_step.
  - unfold POST_api_appointments; repeat history_step.
  - unfold GET_api_appointments; repeat history_step.
  - unfold GET_api_admin_appointments; repeat history_step.
  - unfold GET_api_products; repeat history_step.
  - unfold POST_api_admin_products; repeat history_step.
  - unfold POST_api_orders; repeat history_step.
  - unfold GET_api_orders; repeat history_step.
  - unfold GET_api_admin_orders; repeat history_step.
  - unfold POST_api_messages; repeat history_step.
  - unfold GET_api_messages; repeat history_step.
  - unfold GET_api_admin_messages; repeat history_step.
  - unfold GET_api_coins_transactions; repeat history_step.
Qed.

(** X1.  Whatever requests arrive, in whatever order, and whichever storage
    statements are rejected along the way: every ledger entry and every
    order written earlier is still there, unchanged and in place, and no
    user, appointment, product or message has been removed or has changed
    its id.  The code holds no delete and no update of the ledger or of
    orders. *)
Theorem nothing_written_is_lost {Body : Type}
  (insertAppointmentSchema : Body -> string -> string + InsertAppointment.t)
  (insertProductSchema : Body -> string + InsertProduct.t)
  (insertOrderSchema : Body -> string -> string + InsertOrder.t)
  (insertMessageSchema : Body -> string -> string -> string + InsertMessage.t)
  (requests : list Request) (w : World) :
  history_kept
    (db w)
    (db (respond_all insertAppointmentSchema insertProductSchema
                     insertOrderSchema insertMessageSchema requests w)).
Proof.
  unfold respond_all.
  revert w; induction requests as [|r rest IH]; intros w; simpl.
  - apply history_kept_refl.
  - eapply history_kept_trans; [|apply IH].
    apply history_kept_by_handlers.
Qed.

(** ** How handlers answer *)

Ltac read_handler :=
  unfold reads_only, try_catch, bind, statement;
  match goal with
  | |- context [failure ?t] => destruct (failure t)
  end; cbn [db env pc fst snd];
  eexists; split; reflexivity.

(** X2.  The nine reading handlers never write: each issues exactly one
    statement and leaves the store untouched.  When the read succeeds the
    client gets, with status 200, exactly the rows the route is for: the
    user row of the id, or the rows of the table that match the route's
    filter in the route's order.  When the read is rejected the client gets
    status 500 and the handler's fixed message, never the text of the
    storage error. *)
Theorem reading_handlers_never_write (w : World) (userId : string) :
  reads_only (GET_api_auth_user userId)
    (fun d => first_row (where_ (fun u => String.eqb (users.id u) userId)
                                (users_rows d)))
    "Failed to fetch user" w
  /\ reads_only (GET_api_appointments userId)
       (fun d => orderBy_desc appointments.appointmentDate
                   (where_ (fun a => String.eqb (appointments.userId a) userId)
                           (appointments_rows d)))
       "Failed to fetch appointments" w
  /\ reads_only GET_api_admin_appointments
       (fun d => orderBy_desc appointments.createdAt (appointments_rows d))
       "Failed to fetch appointments" w
  /\ reads_only GET_api_products
       (fun d => orderBy_desc products.createdAt
                   (where_ (fun p => Bool.eqb (products.isActive p) true)
                           (products_rows d)))
       "Failed to fetch products" w
  /\ reads_only (GET_api_orders userId)
       (fun d => orderBy_desc orders.createdAt
                   (where_ (fun o => String.eqb (orders.userId o) userId)
                           (orders_rows d)))
       "Failed to fetch orders" w
  /\ reads_only GET_api_admin_orders
       (fun d => orderBy_desc orders.createdAt (orders_rows d))
       "Failed to fetch orders" w
  /\ reads_only (GET_api_messages userId)
       (fun d => orderBy_desc messages.createdAt
                   (where_ (fun m => String.eqb (messages.userId m) userId)
                           (messages_rows d)))
       "Failed to fetch messages" w
  /\ reads_only GET_api_admin_messages
       (fun d => orderBy_desc messages.createdAt (messages_rows d))
       "Failed to fetch messages" w
  /\ reads_only (GET_api_coins_transactions userId)
       (fun d => orderBy_desc coinTransactions.createdAt
                   (where_ (fun c => String.eqb (coinTransactions.userId c)
                                                userId)
                           (coinTransactions_rows d)))
       "Failed to fetch transactions" w.
Proof.
  repeat match goal with |- _ /\ _ => split end.
  - unfold GET_api_auth_user, storage.getUser; read_handler.
  - unfold GET_api_appointments, storage.getUserAppointments; read_handler.
  - unfold GET_api_admin_appointments, storage.getAllAppointments;
      read_handler.
  - unfold GET_api_products, storage.getProducts; read_handler.
  - unfold GET_api_orders, storage.getUserOrders; read_handler.
  - unfold GET_api_admin_orders, storage.getAllOrders; read_handler.
  - unfold GET_api_messages, storage.getUserMessages; read_handler.
  - unfold GET_api_admin_messages, storage.getAdminMessages; read_handler.
  - unfold GET_api_coins_transactions, storage.getUserCoinTransactions;
      read_handler.
Qed.

Lemma message_or_not_empty (e : Error) (fallback : string) :
  fallback <> "" -> message_or e fallback <> "".
Proof.
  intros Hfb; unfold message_or.
  destruct (String.eqb_spec (message e) ""); assumption.
Qed.

Lemma insufficient_coins_not_empty : insufficient_coins <> "".
Proof. discriminate. Qed.

Ltac run_writing_handler :=
  unfold POST_api_appointments, POST_api_admin_products, POST_api_orders,
    POST_api_messages, try_catch, bind, parse, throw, ret, res_json,
    res_status_json,
    storage.getUser, storage.createAppointment, storage.addCoinTransaction,
    storage.updateUserCoins, storage.createOrder, storage.createProduct,
    storage.createMessage, statement;
  cbn [db env pc fst snd].

Ltac next_failure :=
  match goal with
  | |- context [failure ?t] => destruct (failure t)
  end; cbn [db env pc fst snd].

(** What is left to show once a handler has run to its answer. *)
Ltac answered :=
  do 2 eexists; split; [reflexivity|]; split;
  [ first
      [ left; eexists; split; reflexivity
      | right; eexists; split;
        [ reflexivity
        | first [ apply message_or_not_empty; discriminate
                | apply insufficient_coins_not_empty ] ] ]
  | intros row Hrow;
    first
      [ discriminate Hrow
      | injection Hrow as <-; eexists; split;
        [reflexivity|repeat split; reflexivity] ] ].

(** X3.  The four writing handlers always answer, whatever the body and
    whichever statements are rejected: no exception escapes the handler.
    The answer is status 200 with the row the handler has just created,
    which is then the last row of its table and carries the data the
    validator returned; or it is status 400 with a message that is never
    empty (the error's message, or the handler's fallback when the error
    carries none). *)
Theorem writing_handlers_always_answer {Body : Type}
  (insertAppointmentSchema : Body -> string -> string + InsertAppointment.t)
  (insertProductSchema : Body -> string + InsertProduct.t)
  (insertOrderSchema : Body -> string -> string + InsertOrder.t)
  (insertMessageSchema : Body -> string -> string -> string + InsertMessage.t)
  (userId : string) (body : Body) (w : World) :
  (exists r w',
     POST_api_appointments insertAppointmentSchema userId body w = (inr r, w')
     /\ created_or_refused appointments_rows w w' r
     /\ forall row, r = Json 200 row ->
          exists data,
            insertAppointmentSchema body userId = inr data
            /\ row = appointments.mk
                       (fresh (env w (pc w)))
                       (InsertAppointment.userId data)
                       (InsertAppointment.serviceTitle data)
                       (InsertAppointment.appointmentDate data)
                       (InsertAppointment.coinsEarned data)
                       (InsertAppointment.status data)
                       (now (env w (pc w))))
  /\ (exists r w',
        POST_api_admin_products insertProductSchema body w = (inr r, w')
        /\ created_or_refused products_rows w w' r
        /\ forall row, r = Json 200 row ->
             exists data,
               insertProductSchema body = inr data
               /\ row = products.mk
                          (fresh (env w (pc w)))
                          (InsertProduct.title data)
                          (InsertProduct.description data)
                          (InsertProduct.price data)
                          (InsertProduct.isActive data)
                          (now (env w (pc w))) (now (env w (pc w))))
  /\ (exists r w',
        POST_api_orders insertOrderSchema userId body w = (inr r, w')
        /\ created_or_refused orders_rows w w' r
        /\ forall row, r = Json 200 row ->
             exists data,
               insertOrderSchema body userId = inr data
               /\ orders.userId row = InsertOrder.userId data
               /\ orders.items row = InsertOrder.items data
               /\ orders.total row = InsertOrder.total data
               /\ orders.coinsUsed row = InsertOrder.coinsUsed data)
  /\ (exists r w',
        POST_api_messages insertMessageSchema userId body w = (inr r, w')
        /\ created_or_refused messages_rows w w' r
        /\ forall row, r = Json 200 row ->
             exists data,
               insertMessageSchema body userId "customer" = inr data
               /\ messages.id row = fresh (env w (pc w))
               /\ messages.userId row = InsertMessage.userId data
               /\ messages.senderRole row = InsertMessage.senderRole data
               /\ messages.content row = InsertMessage.content data
               /\ messages.createdAt row = now (env w (pc w))).
Proof.
  unfold created_or_refused.
  repeat match goal with |- _ /\ _ => split end.
  - run_writing_handler.
    destruct (insertAppointmentSchema body userId) as [msg|data];
      cbn [db env pc fst snd]; [answered|].
    next_failure; [answered|].
    next_failure; [answered|].
    next_failure; answered.
  - run_writing_handler.
    destruct (insertProductSchema body) as [msg|data];
      cbn [db env pc fst snd]; [answered|].
    next_failure; answered.
  - run_writing_handler.
    destruct (insertOrderSchema body userId) as [msg|data];
      cbn [db env pc fst snd]; [answered|].
    destruct (0 <? InsertOrder.coinsUsed data).
    + next_failure; [answered|].
      destruct (first_row _) as [u|]; cbn [db env pc fst snd]; [|answered].
      destruct (users.coinBalance u <? InsertOrder.coinsUsed data);
        cbn [db env pc fst snd]; [answered|].
      next_failure; [answered|].
      next_failure; [answered|].
      next_failure; answered.
    + next_failure; answered.
  - run_writing_handler.
    destruct (insertMessageSchema body userId "customer") as [msg|data];
      cbn [db env pc fst snd]; [answered|].
    next_failure; answered.
Qed.

(** ** The window in which the books can drift *)

Ltac run_handler :=
  unfold POST_api_appointments, POST_api_orders, try_catch, bind, parse,
    throw, ret, res_json, res_status_json,
    storage.getUser, storage.createAppointment, storage.addCoinTransaction,
    storage.updateUserCoins, storage.createOrder, statement;
  cbn [db env pc fst snd].

Ltac split_on_failure :=
  match goal with
  | H : failure ?t = _ |- context [failure ?t] => rewrite H
  | |- context [failure ?t] => destruct (failure t) eqn:?
  end; cbn [db env pc fst snd].

(** X4.  In both coin-affecting handlers the second half of the ledger/balance
    pair is the third statement the handler issues.  If that statement is
    not rejected, the books stay reconciled, whichever other statements are
    rejected: a failure before the pair writes nothing of it, and a failure
    after it leaves both halves in place. *)
Theorem books_drift_only_at_third_statement {Body : Type}
  (insertAppointmentSchema : Body -> string -> string + InsertAppointment.t)
  (insertOrderSchema : Body -> string -> string + InsertOrder.t)
  (r : CoinRequest) (w : World) :
  reconciled (db w) ->
  failure (env w (S (S (pc w)))) = None ->
  reconciled (db (serve insertAppointmentSchema insertOrderSchema r w)).
Proof.
  intros Hbooks Hthird.
  destruct r as [userId body|userId body]; simpl.
  - run_handler.
    destruct (insertAppointmentSchema body userId) as [msg|data];
      cbn [db env pc fst snd]; [exact Hbooks|].
    split_on_failure; [exact Hbooks|].
    split_on_failure; [exact Hbooks|].
    split_on_failure.
    unfold reconciled; cbn.
    apply (books_follow_pair (users_rows (db w)) (coinTransactions_rows (db w))
             userId
             (coinTransactions.mk (fresh (env w (S (pc w)))) userId
                (InsertAppointment.coinsEarned data) "earned_appointment"
                _ _ (now (env w (S (pc w)))))
             (env w (S (S (pc w)))));
      [exact Hbooks|reflexivity].
  - run_handler.
    destruct (insertOrderSchema body userId) as [msg|data];
      cbn [db env pc fst snd]; [exact Hbooks|].
    destruct (0 <? InsertOrder.coinsUsed data).
    + split_on_failure; [exact Hbooks|].
      destruct (first_row _) as [u|]; cbn [db env pc fst snd];
        [|exact Hbooks].
      destruct (users.coinBalance u <? InsertOrder.coinsUsed data);
        cbn [db env pc fst snd]; [exact Hbooks|].
      split_on_failure; [exact Hbooks|].
      split_on_failure.
      assert (Hpair : reconciled
                (set_coinTransactions
                   (coinTransactions_rows (db w)
                    ++ [coinTransactions.mk (fresh (env w (S (S (pc w)))))
                          userId (- InsertOrder.coinsUsed data) "redeemed"
                          (redeemed_description (InsertOrder.coinsUsed data))
                          None (now (env w (S (S (pc w)))))])
                   (set_users
                      (update_where
                         (fun u0 => String.eqb (users.id u0) userId)
                         (storage.add_coins (- InsertOrder.coinsUsed data)
                                            (env w (S (pc w))))
                         (users_rows (db w)))
                      (db w)))).
      { unfold reconciled; cbn.
        apply (books_follow_pair (users_rows (db w))
                 (coinTransactions_rows (db w)) userId
                 (coinTransactions.mk (fresh (env w (S (S (pc w))))) userId
                    (- InsertOrder.coinsUsed data) "redeemed"
                    _ _ (now (env w (S (S (pc w))))))
                 (env w (S (pc w))));
          [exact Hbooks|reflexivity]. }
      split_on_failure; exact Hpair.
    + split_on_failure; exact Hbooks.
Qed.

Lemma salon_db_reconciled (balance : Z) : reconciled (salon_db balance).
Proof.
  intros u [<-|[]]; unfold ledger_sum; simpl; lia.
Defined.

Lemma books_drift_only_at_third_statement_witness :
  reconciled
    (db (serve exampleAppointmentSchema exampleOrderSchema
           (PlaceOrder "dana" (OrderBody "Shampoo" 40 50))
           (mkWorld (salon_db 100) (failing_env 3) 0))).
Proof.
  apply (books_drift_only_at_third_statement
           exampleAppointmentSchema exampleOrderSchema).
  - apply salon_db_reconciled.
  - reflexivity.
Defined.

(** ** Checkout and the balance *)

Lemma coinBalance_of_other (d rest : Db) (U V : string) (amount : Z)
  (t : Tick) :
  users_rows rest
  = update_where (fun u => String.eqb (users.id u) U)
                 (storage.add_coins amount t) (users_rows d) ->
  V <> U ->
  coinBalance_of V rest = coinBalance_of V d.
Proof.
  intros Hrows Hneq; unfold coinBalance_of; rewrite Hrows; clear Hrows.
  f_equal.
  unfold update_where, where_, first_row.
  induction (users_rows d) as [|x rows IH]; simpl; [reflexivity|].
  destruct (String.eqb_spec (users.id x) U) as [E|E]; simpl.
  - replace (String.eqb (users.id x) V) with false
      by (symmetry; apply String.eqb_neq; congruence).
    exact IH.
  - destruct (String.eqb (users.id x) V); [reflexivity|exact IH].
Qed.

(** X5.  A checkout whose statements run with no statement of another
    request in between does not overdraw: whatever the body, whoever places
    the order and whichever of its statements are rejected, a balance that
    was not negative before the handler ran is not negative after it, and
    has not grown.  The handler is here run from its first statement to its
    answer as one step of the world; the condition matters, as
    [interleaved_checkouts_overdraw] shows. *)
Theorem checkout_run_alone_never_overdraws {Body : Type}
  (insertOrderSchema : Body -> string -> string + InsertOrder.t)
  (userId : string) (body : Body) (w : World) (V : string) (b : Z) :
  coinBalance_of V (db w) = Some b ->
  0 <= b ->
  exists b',
    coinBalance_of V (db (snd (POST_api_orders insertOrderSchema
                                 userId body w))) = Some b'
    /\ 0 <= b' <= b.
Proof.
  intros HV Hpos.
  assert (Hsame : exists b', coinBalance_of V (db w) = Some b' /\ 0 <= b' <= b)
    by (exists b; split; [exact HV|lia]).
  run_handler.
  destruct (insertOrderSchema body userId) as [msg|data];
    cbn [db env pc fst snd]; [exact Hsame|].
  destruct (0 <? InsertOrder.coinsUsed data) eqn:Hused.
  - apply Z.ltb_lt in Hused.
    split_on_failure; [exact Hsame|].
    destruct (first_row _) as [u|] eqn:Hfirst; cbn [db env pc fst snd];
      [|exact Hsame].
    destruct (users.coinBalance u <? InsertOrder.coinsUsed data) eqn:Hfunds;
      cbn [db env pc fst snd]; [exact Hsame|].
    apply Z.ltb_ge in Hfunds.
    split_on_failure; [exact Hsame|].
    set (t := env w (S (pc w))).
    assert (Hafter : forall rest,
      users_rows rest
      = update_where (fun u0 => String.eqb (users.id u0) userId)
          (storage.add_coins (- InsertOrder.coinsUsed data) t)
          (users_rows (db w)) ->
      exists b', coinBalance_of V rest = Some b' /\ 0 <= b' <= b).
    { intros rest Hrest.
      destruct (String.eqb_spec V userId) as [->|Hneq].
      - rewrite (coinBalance_of_adjusted (db w) userId _ t rest Hrest).
        rewrite HV; simpl.
        unfold coinBalance_of in HV; rewrite Hfirst in HV.
        injection HV as HV.
        eexists; split; [reflexivity|lia].
      - rewrite (coinBalance_of_other (db w) rest userId V _ t Hrest Hneq).
        exact Hsame. }
    split_on_failure; [apply Hafter; reflexivity|].
    split_on_failure; apply Hafter; reflexivity.
  - split_on_failure; exact Hsame.
Qed.

Lemma checkout_run_alone_never_overdraws_witness :
  exists b',
    coinBalance_of "dana"
      (db (snd (POST_api_orders exampleOrderSchema "dana"
                  (OrderBody "Shampoo" 40 100)
                  (mkWorld (salon_db 100) (failing_env 2) 0)))) = Some b'
    /\ 0 <= b' <= 100.
Proof.
  apply (checkout_run_alone_never_overdraws exampleOrderSchema "dana"
           (OrderBody "Shampoo" 40 100)
           (mkWorld (salon_db 100) (failing_env 2) 0) "dana" 100).
  - reflexivity.
  - lia.
Defined.

(** The balance check and the deduction are two awaited statements.  When
    two checkouts of 100 coins by a user holding 100 interleave at those
    awaits, both reads see 100, both checks pass and both deductions are
    applied: the balance ends at -100. *)
Remark interleaved_checkouts_overdraw :
  exists first_read second_read w1 w2 first_cut w3 second_cut w4,
    storage.getUser "dana" (mkWorld (salon_db 100) calm_env 0)
    = (inr (Some first_read), w1)
    /\ storage.getUser "dana" w1 = (inr (Some second_read), w2)
    /\ (users.coinBalance first_read <? 100) = false
    /\ (users.coinBalance second_read <? 100) = false
    /\ storage.updateUserCoins "dana" (- 100) w2 = (inr first_cut, w3)
    /\ storage.updateUserCoins "dana" (- 100) w3 = (inr second_cut, w4)
    /\ coinBalance_of "dana" (db w4) = Some (- 100).
Proof.
  do 8 eexists.
  split; [reflexivity|].
  split; [reflexivity|].
  split; [reflexivity|].
  split; [reflexivity|].
  split; [reflexivity|].
  split; reflexivity.
Qed.

(** X6.  A checkout that uses coins is refused, with status 400 and the
    insufficient-coins message, whenever the buyer has no user row or holds
    fewer coins than the order uses; the handler has then issued one read
    and written nothing. *)
Theorem short_checkout_is_refused {Body : Type}
  (insertOrderSchema : Body -> string -> string + InsertOrder.t)
  (userId : string) (body : Body) (data : InsertOrder.t) (w : World) :
  insertOrderSchema body userId = inr data ->
  0 < InsertOrder.coinsUsed data ->
  failure (env w (pc w)) = None ->
  (forall u,
     first_row (where_ (fun x => String.eqb (users.id x) userId)
                       (users_rows (db w))) = Some u ->
     users.coinBalance u < InsertOrder.coinsUsed data) ->
  POST_api_orders insertOrderSchema userId body w
  = (inr (MessageJson 400 insufficient_coins),
     mkWorld (db w) (env w) (S (pc w))).
Proof.
  intros Hparse Hused Hok Hshort.
  unfold POST_api_orders; apply try_ok.
  rewrite (parse_accepted _ _ _ _ Hparse); cbv zeta.
  replace (0 <? InsertOrder.coinsUsed data) with true
    by (symmetry; apply Z.ltb_lt; exact Hused).
  unfold storage.getUser; next_ok Hok.
  destruct (first_row _) as [u|] eqn:Hfirst; [|reflexivity].
  replace (users.coinBalance u <? InsertOrder.coinsUsed data) with true
    by (symmetry; apply Z.ltb_lt, Hshort; reflexivity).
  reflexivity.
Qed.

Lemma short_checkout_is_refused_witness :
  POST_api_orders exampleOrderSchema "noa" (OrderBody "Shampoo" 40 1)
                  (mkWorld (salon_db 100) calm_env 0)
  = (inr (MessageJson 400 insufficient_coins),
     mkWorld (salon_db 100) calm_env 1).
Proof.
  apply (short_checkout_is_refused exampleOrderSchema "noa"
           (OrderBody "Shampoo" 40 1) (InsertOrder.mk "noa" "Shampoo" 40 1)).
  - reflexivity.
  - simpl; lia.
  - reflexivity.
  - simpl; intros u H; discriminate.
Defined.

(** X7.  A checkout that uses coins the buyer holds, with no statement rejected:
    the balance drops by exactly the coins used, the ledger gains exactly
    one entry, of minus that amount, of type [redeemed], for the buyer and
    related to nothing, exactly one order is added, carrying the validated
    data, and that order is the answer. *)
Theorem served_checkout_redeems_once {Body : Type}
  (insertOrderSchema : Body -> string -> string + InsertOrder.t)
  (userId : string) (body : Body) (data : InsertOrder.t) (u : User)
  (w : World) :
  insertOrderSchema body userId = inr data ->
  0 < InsertOrder.coinsUsed data ->
  first_row (where_ (fun x => String.eqb (users.id x) userId)
                    (users_rows (db w))) = Some u ->
  InsertOrder.coinsUsed data <= users.coinBalance u ->
  failure (env w (pc w)) = None ->
  failure (env w (S (pc w))) = None ->
  failure (env w (S (S (pc w)))) = None ->
  failure (env w (S (S (S (pc w))))) = None ->
  exists order entry w',
    POST_api_orders insertOrderSchema userId body w
    = (inr (Json 200 order), w')
    /\ coinBalance_of userId (db w')
       = Some (users.coinBalance u - InsertOrder.coinsUsed data)
    /\ coinTransactions_rows (db w')
       = (coinTransactions_rows (db w) ++ [entry])%list
    /\ entry = coinTransactions.mk
                 (fresh (env w (S (S (pc w))))) userId
                 (- InsertOrder.coinsUsed data) "redeemed"
                 (redeemed_description (InsertOrder.coinsUsed data))
                 None (now (env w (S (S (pc w)))))
    /\ orders_rows (db w') = (orders_rows (db w) ++ [order])%list
    /\ order = orders.mk
                 (fresh (env w (S (S (S (pc w))))))
                 (InsertOrder.userId data) (InsertOrder.items data)
                 (InsertOrder.total data) (InsertOrder.coinsUsed data)
                 (now (env w (S (S (S (pc w))))))
    /\ appointments_rows (db w') = appointments_rows (db w)
    /\ products_rows (db w') = products_rows (db w)
    /\ messages_rows (db w') = messages_rows (db w).
Proof.
  intros Hparse Hused Hfirst Hfunds H0 H1 H2 H3.
  do 3 eexists; split.
  - unfold POST_api_orders; apply try_ok.
    rewrite (parse_accepted _ _ _ _ Hparse); cbv zeta.
    replace (0 <? InsertOrder.coinsUsed data) with true
      by (symmetry; apply Z.ltb_lt; exact Hused).
    unfold storage.getUser; next_ok H0.
    rewrite Hfirst.
    replace (users.coinBalance u <? InsertOrder.coinsUsed data) with false
      by (symmetry; apply Z.ltb_ge; exact Hfunds).
    unfold storage.updateUserCoins; next_ok H1.
    unfold storage.addCoinTransaction; next_ok H2.
    unfold storage.createOrder; next_ok H3.
    reflexivity.
  - cbn [db]; split.
    + rewrite (coinBalance_of_adjusted (db w) userId
                 (- InsertOrder.coinsUsed data) (env w (S (pc w))))
        by reflexivity.
      unfold coinBalance_of; rewrite Hfirst; reflexivity.
    + cbn; repeat split; reflexivity.
Qed.

Lemma served_checkout_redeems_once_witness :
  exists order entry w',
    POST_api_orders exampleOrderSchema "dana" (OrderBody "Shampoo" 40 30)
                    (mkWorld (salon_db 100) calm_env 0)
    = (inr (Json 200 order), w')
    /\ coinBalance_of "dana" (db w') = Some 70
    /\ coinTransactions_rows (db w') = [welcome_gift 100; entry]
    /\ orders_rows (db w') = [order].
Proof.
  destruct (served_checkout_redeems_once exampleOrderSchema "dana"
              (OrderBody "Shampoo" 40 30)
              (InsertOrder.mk "dana" "Shampoo" 40 30) (dana 100)
              (mkWorld (salon_db 100) calm_env 0)
              eq_refl ltac:(simpl; lia) eq_refl ltac:(simpl; lia)
              eq_refl eq_refl eq_refl eq_refl)
    as (order & entry & w' & Hrun & Hbal & Hledger & _ & Horders & _).
  exists order, entry, w'; repeat split; assumption.
Defined.

(** X8.  A booking with no statement rejected: the appointment is stored with
    the validated data and is the answer; the ledger gains exactly one
    entry, of the appointment's [coinsEarned], of type [earned_appointment],
    related to the appointment and booked to the authenticated user; that
    user's balance grows by the same amount.  When the authenticated id has
    no user row the booking is served all the same: appointment and ledger
    entry are written and no balance exists to adjust. *)
Theorem served_booking_awards_once {Body : Type}
  (insertAppointmentSchema : Body -> string -> string + InsertAppointment.t)
  (userId : string) (body : Body) (data : InsertAppointment.t) (w : World) :
  insertAppointmentSchema body userId = inr data ->
  failure (env w (pc w)) = None ->
  failure (env w (S (pc w))) = None ->
  failure (env w (S (S (pc w)))) = None ->
  exists appointment entry w',
    POST_api_appointments insertAppointmentSchema userId body w
    = (inr (Json 200 appointment), w')
    /\ appointment = appointments.mk
                       (fresh (env w (pc w)))
                       (InsertAppointment.userId data)
                       (InsertAppointment.serviceTitle data)
                       (InsertAppointment.appointmentDate data)
                       (InsertAppointment.coinsEarned data)
                       (InsertAppointment.status data)
                       (now (env w (pc w)))
    /\ appointments_rows (db w')
       = (appointments_rows (db w) ++ [appointment])%list
    /\ coinTransactions_rows (db w')
       = (coinTransactions_rows (db w) ++ [entry])%list
    /\ entry = coinTransactions.mk
                 (fresh (env w (S (pc w)))) userId
                 (InsertAppointment.coinsEarned data) "earned_appointment"
                 (earned_description appointment)
                 (Some (appointments.id appointment))
                 (now (env w (S (pc w))))
    /\ coinBalance_of userId (db w')
       = option_map (fun b => b + InsertAppointment.coinsEarned data)
                    (coinBalance_of userId (db w))
    /\ map users.id (users_rows (db w')) = map users.id (users_rows (db w))
    /\ orders_rows (db w') = orders_rows (db w)
    /\ products_rows (db w') = products_rows (db w)
    /\ messages_rows (db w') = messages_rows (db w).
Proof.
  intros Hparse H0 H1 H2.
  do 3 eexists; split.
  - unfold POST_api_appointments; apply try_ok.
    rewrite (parse_accepted _ _ _ _ Hparse).
    unfold storage.createAppointment; next_ok H0.
    unfold storage.addCoinTransaction; next_ok H1.
    unfold storage.updateUserCoins; next_ok H2.
    reflexivity.
  - cbn [db]; repeat split; try reflexivity.
    + apply (coinBalance_of_adjusted (db w) userId _ (env w (S (S (pc w)))));
        reflexivity.
    + cbn; apply map_update_where; intros x Hx; reflexivity.
Qed.

Lemma served_booking_awards_once_witness :
  exists appointment entry w',
    POST_api_appointments exampleAppointmentSchema "noa"
      (AppointmentBody "Haircut" 5000 20) (mkWorld (salon_db 100) calm_env 0)
    = (inr (Json 200 appointment), w')
    /\ coinTransactions_rows (db w') = [welcome_gift 100; entry]
    /\ coinTransactions.userId entry = "noa"
    /\ coinBalance_of "noa" (db w') = None.
Proof.
  destruct (served_booking_awards_once exampleAppointmentSchema "noa"
              (AppointmentBody "Haircut" 5000 20)
              (InsertAppointment.mk "noa" "Haircut" 5000 20 "created")
              (mkWorld (salon_db 100) calm_env 0)
              eq_refl eq_refl eq_refl eq_refl)
    as (a & entry & w' & Hrun & _ & _ & Hledger & Hentry & Hbal & _).
  exists a, entry, w'; split; [exact Hrun|].
  split; [exact Hledger|].
  split; [rewrite Hentry; reflexivity|exact Hbal].
Defined.

(** ** Updates by id *)

Lemma set_appointments_same (d : Db) :
  set_appointments (appointments_rows d) d = d.
Proof. destruct d; reflexivity. Qed.

Lemma set_products_same (d : Db) : set_products (products_rows d) d = d.
Proof. destruct d; reflexivity. Qed.

Lemma set_messages_same (d : Db) : set_messages (messages_rows d) d = d.
Proof. destruct d; reflexivity. Qed.

(** X9.  An update addressed to an id that no row carries is no error and
    changes nothing: [updateAppointmentStatus] and [updateProduct] resolve
    to [undefined], [markMessageAsRead] resolves, and the store is exactly
    as before. *)
Theorem update_of_missing_row_changes_nothing
  (w : World) (id status : string) (productData : PartialProduct.t) :
  failure (env w (pc w)) = None ->
  ((forall a, In a (appointments_rows (db w)) -> appointments.id a <> id) ->
   storage.updateAppointmentStatus id status w
   = (inr None, mkWorld (db w) (env w) (S (pc w))))
  /\
  ((forall p, In p (products_rows (db w)) -> products.id p <> id) ->
   storage.updateProduct id productData w
   = (inr None, mkWorld (db w) (env w) (S (pc w))))
  /\
  ((forall m, In m (messages_rows (db w)) -> messages.id m <> id) ->
   storage.markMessageAsRead id w
   = (inr tt, mkWorld (db w) (env w) (S (pc w)))).
Proof.
  intros Hok; repeat split; intros Habsent.
  - unfold storage.updateAppointmentStatus.
    rewrite statement_ok by exact Hok; cbn [fst snd].
    assert (Hnone : forall a, In a (appointments_rows (db w)) ->
                      String.eqb (appointments.id a) id = false)
      by (intros a Ha; apply String.eqb_neq, Habsent, Ha).
    rewrite returning_none, update_where_none by exact Hnone.
    rewrite set_appointments_same; reflexivity.
  - unfold storage.updateProduct.
    rewrite statement_ok by exact Hok; cbn [fst snd].
    assert (Hnone : forall p, In p (products_rows (db w)) ->
                      String.eqb (products.id p) id = false)
      by (intros p Hp; apply String.eqb_neq, Habsent, Hp).
    rewrite returning_none, update_where_none by exact Hnone.
    rewrite set_products_same; reflexivity.
  - unfold storage.markMessageAsRead.
    rewrite statement_ok by exact Hok; cbn [fst snd].
    assert (Hnone : forall m, In m (messages_rows (db w)) ->
                      String.eqb (messages.id m) id = false)
      by (intros m Hm; apply String.eqb_neq, Habsent, Hm).
    rewrite update_where_none by exact Hnone.
    rewrite set_messages_same; reflexivity.
Qed.

Lemma update_of_missing_row_changes_nothing_witness :
  storage.updateAppointmentStatus "a-9" "cancelled"
    (mkWorld (salon_db 100) calm_env 0)
  = (inr None, mkWorld (salon_db 100) calm_env 1)
  /\ storage.updateProduct "p-9" deactivate (mkWorld (salon_db 100) calm_env 0)
     = (inr None, mkWorld (salon_db 100) calm_env 1)
  /\ storage.markMessageAsRead "m-9" (mkWorld (salon_db 100) calm_env 0)
     = (inr tt, mkWorld (salon_db 100) calm_env 1).
Proof.
  destruct (update_of_missing_row_changes_nothing
              (mkWorld (salon_db 100) calm_env 0) "a-9" "cancelled" deactivate
              eq_refl) as (Ha & _ & _).
  destruct (update_of_missing_row_changes_nothing
              (mkWorld (salon_db 100) calm_env 0) "p-9" "cancelled" deactivate
              eq_refl) as (_ & Hp & _).
  destruct (update_of_missing_row_changes_nothing
              (mkWorld (salon_db 100) calm_env 0) "m-9" "cancelled" deactivate
              eq_refl) as (_ & _ & Hm).
  split; [|split].
  - apply Ha; simpl; intros a [<-|[<-|[]]]; discriminate.
  - apply Hp; simpl; intros p [<-|[<-|[]]]; discriminate.
  - apply Hm; simpl; intros m [].
Defined.

(** X10.  [updateProduct] is a patch: in the rows with the id, a field the patch
    provides takes the provided value, a field the patch leaves out keeps
    its stored value, id and creation time are kept and the update time is
    refreshed; rows with another id, and all other tables, are untouched. *)
Theorem product_patch_keeps_what_it_omits
  (w : World) (id : string) (productData : PartialProduct.t) :
  failure (env w (pc w)) = None ->
  exists updated rows',
    storage.updateProduct id productData w
    = (inr updated, mkWorld (set_products rows' (db w)) (env w) (S (pc w)))
    /\ List.length rows' = List.length (products_rows (db w))
    /\ forall i p, nth_error (products_rows (db w)) i = Some p ->
         exists p', nth_error rows' i = Some p'
           /\ (products.id p <> id -> p' = p)
           /\ (products.id p = id ->
                 products.id p' = products.id p
                 /\ products.createdAt p' = products.createdAt p
                 /\ products.updatedAt p' = now (env w (pc w))
                 /\ (forall v, PartialProduct.title productData = Some v ->
                       products.title p' = v)
                 /\ (PartialProduct.title productData = None ->
                       products.title p' = products.title p)
                 /\ (forall v,
                       PartialProduct.description productData = Some v ->
                       products.description p' = v)
                 /\ (PartialProduct.description productData = None ->
                       products.description p' = products.description p)
                 /\ (forall v, PartialProduct.price productData = Some v ->
                       products.price p' = v)
                 /\ (PartialProduct.price productData = None ->
                       products.price p' = products.price p)
                 /\ (forall v, PartialProduct.isActive productData = Some v ->
                       products.isActive p' = v)
                 /\ (PartialProduct.isActive productData = None ->
                       products.isActive p' = products.isActive p)).
Proof.
  intros Hok.
  unfold storage.updateProduct.
  rewrite statement_ok by exact Hok; cbn [fst snd].
  do 2 eexists; split; [reflexivity|].
  split; [unfold update_where; apply length_map|].
  intros i p Hp.
  rewrite update_where_nth, Hp; simpl.
  destruct (String.eqb_spec (products.id p) id) as [E|E].
  - eexists; split; [reflexivity|].
    split; [intros N; contradiction|].
    intros _; simpl.
    repeat split; try reflexivity;
      try (intros v Hv; rewrite Hv; reflexivity);
      try (intros Hv; rewrite Hv; reflexivity).
  - exists p; split; [reflexivity|].
    split; [reflexivity|intros N; contradiction].
Qed.

Lemma product_patch_keeps_what_it_omits_witness :
  exists updated rows',
    storage.updateProduct "p-1" deactivate (mkWorld (salon_db 100) calm_env 0)
    = (inr updated, mkWorld (set_products rows' (salon_db 100)) calm_env 1)
    /\ exists p', nth_error rows' 0 = Some p'
         /\ products.title p' = "Shampoo"
         /\ products.isActive p' = false.
Proof.
  destruct (product_patch_keeps_what_it_omits
              (mkWorld (salon_db 100) calm_env 0) "p-1" deactivate eq_refl)
    as (updated & rows' & Hrun & _ & Hrows).
  exists updated, rows'; split; [exact Hrun|].
  destruct (Hrows 0%nat shampoo eq_refl) as (p' & Hp' & _ & Hsame).
  destruct (Hsame eq_refl)
    as (_ & _ & _ & _ & Htitle & _ & _ & _ & _ & Hactive & _).
  exists p'; split; [exact Hp'|].
  split; [apply Htitle; reflexivity|apply Hactive; reflexivity].
Defined.

Lemma update_where_twice {A} (cond : A -> bool) (f g : A -> A)
  (rows : list A) :
  (forall x, cond x = true -> cond (f x) = true) ->
  update_where cond g (update_where cond f rows)
  = update_where cond (fun x => g (f x)) rows.
Proof.
  intros Hcond; unfold update_where; rewrite map_map.
  apply map_ext; intros x.
  destruct (cond x) eqn:E; [rewrite (Hcond x E)|rewrite E]; reflexivity.
Qed.

(** X11.  A product switched off through [updateProduct] is gone from the
    catalogue [getProducts] returns, while [getProduct] by its id still
    returns it, with every field but the visibility flag and the update
    time as stored. *)
Theorem deactivated_product_leaves_catalogue
  (w : World) (id : string) (p : Product) :
  failure (env w (pc w)) = None ->
  failure (env w (S (pc w))) = None ->
  first_row (where_ (fun x => String.eqb (products.id x) id)
                    (products_rows (db w))) = Some p ->
  exists p' w1,
    storage.updateProduct id deactivate w = (inr (Some p'), w1)
    /\ p' = products.mk (products.id p) (products.title p)
              (products.description p) (products.price p) false
              (products.createdAt p) (now (env w (pc w)))
    /\ (exists listed w2,
          storage.getProducts w1 = (inr listed, w2)
          /\ forall q, In q listed -> products.id q <> id)
    /\ (exists w2, storage.getProduct id w1 = (inr (Some p'), w2)).
Proof.
  intros H0 H1 Hfirst.
  unfold storage.updateProduct.
  rewrite statement_ok by exact H0; cbn [fst snd].
  rewrite first_row_returning, Hfirst; simpl option_map.
  do 2 eexists; split; [reflexivity|].
  split; [reflexivity|]; split.
  - unfold storage.getProducts.
    rewrite statement_ok by exact H1; cbn.
    do 2 eexists; split; [reflexivity|].
    intros q Hq Hid.
    apply orderBy_desc_In in Hq.
    unfold where_ in Hq; apply filter_In in Hq; destruct Hq as [Hq Hactive].
    apply update_where_In in Hq; destruct Hq as (x & _ & ->).
    destruct (String.eqb_spec (products.id x) id) as [E|E].
    + discriminate Hactive.
    + contradiction.
  - unfold storage.getProduct.
    rewrite statement_ok by exact H1; cbn.
    rewrite first_row_update by (intros x Hx; exact Hx).
    rewrite Hfirst; eexists; reflexivity.
Qed.

Lemma deactivated_product_leaves_catalogue_witness :
  exists p' w1,
    storage.updateProduct "p-1" deactivate (mkWorld (salon_db 100) calm_env 0)
    = (inr (Some p'), w1)
    /\ products.isActive p' = false
    /\ fst (storage.getProducts w1) = inr []
    /\ fst (storage.getProduct "p-1" w1) = inr (Some p').
Proof.
  destruct (deactivated_product_leaves_catalogue
              (mkWorld (salon_db 100) calm_env 0) "p-1" shampoo
              eq_refl eq_refl eq_refl)
    as (p' & w1 & Hrun & Hp' & _ & (w2 & Hget)).
  exists p', w1; split; [exact Hrun|].
  split; [rewrite Hp'; reflexivity|].
  split; [|rewrite Hget; reflexivity].
  injection Hrun as _ <-; reflexivity.
Defined.

(** ** Messages *)

(** X12.  Marking a message as read is idempotent and narrow: a second call
    leaves the store as the first one left it, and a call changes nothing
    but the [isRead] flag of the rows with that id, which becomes true. *)
Theorem marking_read_again_changes_nothing (w : World) (id : string) :
  failure (env w (pc w)) = None ->
  failure (env w (S (pc w))) = None ->
  exists rows' w1 w2,
    storage.markMessageAsRead id w = (inr tt, w1)
    /\ db w1 = set_messages rows' (db w)
    /\ storage.markMessageAsRead id w1 = (inr tt, w2)
    /\ db w2 = db w1
    /\ List.length rows' = List.length (messages_rows (db w))
    /\ forall i m, nth_error (messages_rows (db w)) i = Some m ->
         exists m', nth_error rows' i = Some m'
           /\ (messages.id m <> id -> m' = m)
           /\ (messages.id m = id ->
                 messages.isRead m' = true
                 /\ messages.id m' = messages.id m
                 /\ messages.userId m' = messages.userId m
                 /\ messages.senderRole m' = messages.senderRole m
                 /\ messages.content m' = messages.content m
                 /\ messages.createdAt m' = messages.createdAt m).
Proof.
  intros H0 H1.
  unfold storage.markMessageAsRead.
  do 3 eexists.
  split; [apply statement_ok, H0|]; cbn [fst snd].
  split; [reflexivity|].
  split; [apply statement_ok; exact H1|]; cbn [fst snd db].
  split; [|split].
  - unfold set_messages;
      cbn [users_rows appointments_rows products_rows orders_rows
           messages_rows coinTransactions_rows].
    rewrite update_where_twice by (intros x Hx; exact Hx).
    reflexivity.
  - unfold update_where; apply length_map.
  - intros i m Hm.
    rewrite update_where_nth, Hm; simpl.
    destruct (String.eqb_spec (messages.id m) id) as [E|E].
    + eexists; split; [reflexivity|].
      split; [intros N; contradiction|].
      intros _; simpl; repeat split; reflexivity.
    + exists m; split; [reflexivity|].
      split; [reflexivity|intros N; contradiction].
Qed.

Lemma marking_read_again_changes_nothing_witness :
  exists rows' w1 w2,
    storage.markMessageAsRead "m-1"
      (mkWorld (set_messages
                  [messages.mk "m-1" "dana" "customer" "Is Friday free?"
                               false 60]
                  (salon_db 100)) calm_env 0)
    = (inr tt, w1)
    /\ storage.markMessageAsRead "m-1" w1 = (inr tt, w2)
    /\ db w2 = db w1
    /\ map messages.isRead rows' = [true].
Proof.
  destruct (marking_read_again_changes_nothing
              (mkWorld (set_messages
                          [messages.mk "m-1" "dana" "customer"
                                       "Is Friday free?" false 60]
                          (salon_db 100)) calm_env 0)
              "m-1" eq_refl eq_refl)
    as (rows' & w1 & w2 & Hrun1 & _ & Hrun2 & Hsame & Hlen & Hrows).
  exists rows', w1, w2; split; [exact Hrun1|].
  split; [exact Hrun2|]; split; [exact Hsame|].
  destruct (Hrows 0%nat _ eq_refl) as (m' & Hm' & _ & Hread).
  destruct (Hread eq_refl) as (Hflag & _).
  destruct rows' as [|r [|r2 rest]]; try discriminate Hlen.
  simpl in Hm'; injection Hm' as ->.
  simpl; rewrite Hflag; reflexivity.
Defined.

(** X13.  A message just created shows in its owner's list; once marked as read
    it shows there as read, with its other fields as created. *)
Theorem message_shows_then_reads (w : World) (message : InsertMessage.t) :
  failure (env w (pc w)) = None ->
  failure (env w (S (pc w))) = None ->
  failure (env w (S (S (pc w)))) = None ->
  exists m w1,
    storage.createMessage message w = (inr m, w1)
    /\ messages.userId m = InsertMessage.userId message
    /\ messages.content m = InsertMessage.content message
    /\ (exists listed w2,
          storage.getUserMessages (InsertMessage.userId message) w1
          = (inr listed, w2)
          /\ In m listed)
    /\ (exists w2 listed w3,
          storage.markMessageAsRead (messages.id m) w1 = (inr tt, w2)
          /\ storage.getUserMessages (InsertMessage.userId message) w2
             = (inr listed, w3)
          /\ In (storage.set_isRead m) listed).
Proof.
  intros H0 H1 H2.
  unfold storage.createMessage.
  rewrite statement_ok by exact H0; cbn [fst snd].
  do 2 eexists; split; [reflexivity|].
  split; [reflexivity|]; split; [reflexivity|].
  split.
  - unfold storage.getUserMessages.
    do 2 eexists.
    split; [apply statement_ok; exact H1|].
    cbn [fst snd db env pc].
    apply orderBy_desc_In; unfold where_; apply filter_In; split.
    + cbn; apply in_or_app; right; left; reflexivity.
    + cbn; apply String.eqb_refl.
  - unfold storage.markMessageAsRead, storage.getUserMessages.
    do 3 eexists.
    split; [apply statement_ok; exact H1|].
    split; [apply statement_ok; exact H2|].
    cbn [fst snd db env pc].
    apply orderBy_desc_In; unfold where_; apply filter_In; split.
    + cbn [messages_rows set_messages]; unfold update_where.
      rewrite map_app; apply in_or_app; right; left.
      cbn; rewrite String.eqb_refl; reflexivity.
    + cbn; apply String.eqb_refl.
Qed.

Lemma message_shows_then_reads_witness :
  exists m w1,
    storage.createMessage (InsertMessage.mk "dana" "customer" "Is Friday free?")
                          (mkWorld (salon_db 100) calm_env 0)
    = (inr m, w1)
    /\ exists listed w2,
         storage.getUserMessages "dana" w1 = (inr listed, w2) /\ In m listed.
Proof.
  destruct (message_shows_then_reads
              (mkWorld (salon_db 100) calm_env 0)
              (InsertMessage.mk "dana" "customer" "Is Friday free?")
              eq_refl eq_refl eq_refl)
    as (m & w1 & Hrun & _ & _ & Hlisted & _).
  exists m, w1; split; [exact Hrun|exact Hlisted].
Defined.

(** ** Users *)

(** X14.  What [upsertUser] returns is what [getUser] then reads under that id,
    and every field the data provides is in that row. *)
Theorem upserted_user_reads_back (w : World) (userData : UpsertUser.t) :
  failure (env w (pc w)) = None ->
  failure (env w (S (pc w))) = None ->
  exists u w1 w2,
    storage.upsertUser userData w = (inr u, w1)
    /\ storage.getUser (UpsertUser.id userData) w1 = (inr (Some u), w2)
    /\ db w2 = db w1
    /\ users.id u = UpsertUser.id userData
    /\ users.updatedAt u = now (env w (pc w))
    /\ (forall v, UpsertUser.email userData = Some v -> users.email u = Some v)
    /\ (forall v, UpsertUser.firstName userData = Some v ->
          users.firstName u = Some v)
    /\ (forall v, UpsertUser.lastName userData = Some v ->
          users.lastName u = Some v)
    /\ (forall v, UpsertUser.profileImageUrl userData = Some v ->
          users.profileImageUrl u = Some v)
    /\ (forall v, UpsertUser.coinBalance userData = Some v ->
          users.coinBalance u = v).
Proof.
  intros H0 H1.
  set (conflict := fun x => String.eqb (users.id x) (UpsertUser.id userData)).
  unfold storage.upsertUser, storage.getUser; fold conflict.
  rewrite statement_ok by exact H0; cbn [fst snd].
  destruct (first_row (where_ conflict (users_rows (db w))))
    as [stored|] eqn:E; cbn [fst snd].
  - (* the id is taken *)
    do 3 eexists; split; [reflexivity|].
    split.
    { rewrite statement_ok by exact H1; cbn [fst snd db env pc].
      cbn [users_rows set_users]; fold conflict.
      rewrite first_row_update
        by (intros x _; unfold conflict; simpl; apply String.eqb_refl).
      rewrite E; reflexivity. }
    split; [reflexivity|]; split; [reflexivity|]; split; [reflexivity|].
    repeat split; intros v Hv; simpl; rewrite Hv; reflexivity.
  - (* the id is free *)
    do 3 eexists; split; [reflexivity|].
    split.
    { rewrite statement_ok by exact H1; cbn [fst snd db env pc].
      cbn [users_rows set_users]; fold conflict.
      unfold where_; rewrite filter_app.
      fold (where_ conflict (users_rows (db w))).
      rewrite where_none by (apply first_row_none; exact E).
      simpl; unfold conflict at 1; simpl; rewrite String.eqb_refl.
      reflexivity. }
    split; [reflexivity|]; split; [reflexivity|]; split; [reflexivity|].
    repeat split; intros v Hv; simpl; rewrite Hv; reflexivity.
Qed.

Lemma upserted_user_reads_back_witness :
  exists u w1 w2,
    storage.upsertUser
      (UpsertUser.mk "dana" None None (Some "Levi") None None)
      (mkWorld (salon_db 100) calm_env 0) = (inr u, w1)
    /\ storage.getUser "dana" w1 = (inr (Some u), w2)
    /\ users.lastName u = Some "Levi".
Proof.
  destruct (upserted_user_reads_back
              (mkWorld (salon_db 100) calm_env 0)
              (UpsertUser.mk "dana" None None (Some "Levi") None None)
              eq_refl eq_refl)
    as (u & w1 & w2 & Hrun & Hget & _ & _ & _ & _ & _ & Hlast & _).
  exists u, w1, w2; split; [exact Hrun|]; split; [exact Hget|].
  apply Hlast; reflexivity.
Defined.

(** X15.  [upsertUser] keeps user ids a key: if no two rows shared an id before,
    none do after.  It adds one row when the id was free and none when it
    was taken, and it leaves the rows of every other id untouched. *)
Theorem upsert_keeps_ids_unique (w : World) (userData : UpsertUser.t) :
  failure (env w (pc w)) = None ->
  NoDup (map users.id (users_rows (db w))) ->
  exists u rows',
    storage.upsertUser userData w
    = (inr u, mkWorld (set_users rows' (db w)) (env w) (S (pc w)))
    /\ NoDup (map users.id rows')
    /\ List.length rows'
       = (List.length (users_rows (db w))
          + (if existsb (fun x => String.eqb (users.id x)
                                             (UpsertUser.id userData))
                        (users_rows (db w))
             then 0 else 1))%nat
    /\ forall x, users.id x <> UpsertUser.id userData ->
         (In x rows' <-> In x (users_rows (db w))).
Proof.
  intros H0 Hkey.
  set (conflict := fun x => String.eqb (users.id x) (UpsertUser.id userData)).
  unfold storage.upsertUser; fold conflict.
  rewrite statement_ok by exact H0; cbn [fst snd].
  destruct (first_row (where_ conflict (users_rows (db w))))
    as [stored|] eqn:E; cbn [fst snd].
  - do 2 eexists; split; [reflexivity|].
    split; [|split].
    + rewrite map_update_where; [exact Hkey|].
      intros x Hx; simpl; symmetry; apply String.eqb_eq, Hx.
    + apply first_row_in in E; destruct E as [Hin Hc].
      replace (existsb conflict (users_rows (db w))) with true
        by (symmetry; apply existsb_exists; exists stored; split; assumption).
      unfold update_where; rewrite length_map; cbv iota.
      symmetry; apply Nat.add_0_r.
    + intros x Hx; split; intros Hin.
      * apply update_where_In in Hin; destruct Hin as (y & Hy & ->).
        destruct (conflict y) eqn:Ey; [|exact Hy].
        exfalso; apply Hx; reflexivity.
      * unfold update_where; apply in_map_iff; exists x; split; [|exact Hin].
        replace (conflict x) with false; [reflexivity|].
        symmetry; apply String.eqb_neq, Hx.
  - pose proof (first_row_none _ _ E) as Hfree.
    do 2 eexists; split; [reflexivity|].
    split; [|split].
    + rewrite map_app; simpl.
      eapply Permutation_NoDup; [apply Permutation_cons_append|].
      constructor; [|exact Hkey].
      intros Hin; apply in_map_iff in Hin; destruct Hin as (y & Hy & Hin).
      specialize (Hfree y Hin); unfold conflict in Hfree.
      apply String.eqb_neq in Hfree; contradiction.
    + replace (existsb conflict (users_rows (db w))) with false.
      * rewrite length_app; cbv iota; reflexivity.
      * symmetry; apply Bool.not_true_is_false; intros Hex.
        apply existsb_exists in Hex; destruct Hex as (y & Hy & Hc).
        rewrite (Hfree y Hy) in Hc; discriminate.
    + intros x Hx; rewrite in_app_iff; split; [|left; assumption].
      intros [Hin|[<-|[]]]; [exact Hin|].
      exfalso; apply Hx; reflexivity.
Qed.

Lemma upsert_keeps_ids_unique_witness :
  exists u rows',
    storage.upsertUser (UpsertUser.mk "noa" None (Some "Noa") None None None)
                       (mkWorld (salon_db 100) calm_env 0)
    = (inr u, mkWorld (set_users rows' (salon_db 100)) calm_env 1)
    /\ NoDup (map users.id rows')
    /\ List.length rows' = 2%nat.
Proof.
  destruct (upsert_keeps_ids_unique
              (mkWorld (salon_db 100) calm_env 0)
              (UpsertUser.mk "noa" None (Some "Noa") None None None)
              eq_refl)
    as (u & rows' & Hrun & Hkey & Hlen & _).
  - simpl; repeat constructor; simpl; intuition.
  - exists u, rows'; split; [exact Hrun|]; split; [exact Hkey|exact Hlen].
Defined.

(** ** Products, created *)

Lemma first_row_snoc_fresh {A} (cond : A -> bool) (rows : list A) (x : A) :
  (forall y, In y rows -> cond y = false) ->
  cond x = true ->
  first_row (where_ cond (rows ++ [x])) = Some x.
Proof.
  intros Hfree Hx; unfold where_; rewrite filter_app.
  fold (where_ cond rows); rewrite where_none by exact Hfree.
  simpl; rewrite Hx; reflexivity.
Qed.

(** X16.  A product created under an id no stored product carries reads back by
    that id, and is in the catalogue exactly when its stored row is
    active. *)
Theorem created_product_reads_back (w : World) (product : InsertProduct.t) :
  failure (env w (pc w)) = None ->
  failure (env w (S (pc w))) = None ->
  (forall q, In q (products_rows (db w)) ->
     products.id q <> fresh (env w (pc w))) ->
  exists p w1,
    storage.createProduct product w = (inr p, w1)
    /\ p = products.mk (fresh (env w (pc w)))
             (InsertProduct.title product) (InsertProduct.description product)
             (InsertProduct.price product) (InsertProduct.isActive product)
             (now (env w (pc w))) (now (env w (pc w)))
    /\ (exists w2, storage.getProduct (products.id p) w1 = (inr (Some p), w2))
    /\ (exists listed w2,
          storage.getProducts w1 = (inr listed, w2)
          /\ (In p listed <-> products.isActive p = true)).
Proof.
  intros H0 H1 Hfresh.
  unfold storage.createProduct.
  rewrite statement_ok by exact H0; cbn [fst snd].
  do 2 eexists; split; [reflexivity|]; split; [reflexivity|]; split.
  - unfold storage.getProduct.
    eexists; rewrite statement_ok by exact H1; cbn [fst snd db env pc].
    cbn [products_rows set_products products.id].
    rewrite first_row_snoc_fresh; [reflexivity| |apply String.eqb_refl].
    intros q Hq; apply String.eqb_neq, Hfresh, Hq.
  - unfold storage.getProducts.
    do 2 eexists; split; [apply statement_ok; exact H1|].
    cbn [fst snd db env pc products_rows set_products].
    rewrite orderBy_desc_In; unfold where_; rewrite filter_In.
    rewrite Bool.eqb_true_iff; simpl products.isActive.
    split; [intros [_ Hact]; exact Hact|].
    intros Hact; split; [|exact Hact].
    apply in_or_app; right; left; reflexivity.
Qed.

Lemma created_product_reads_back_witness :
  exists p w1,
    storage.createProduct (InsertProduct.mk "Conditioner" "250 ml" 35 true)
                          (mkWorld (salon_db 100) calm_env 0) = (inr p, w1)
    /\ (exists w2, storage.getProduct (products.id p) w1 = (inr (Some p), w2))
    /\ products.id p = "row-0".
Proof.
  destruct (created_product_reads_back
              (mkWorld (salon_db 100) calm_env 0)
              (InsertProduct.mk "Conditioner" "250 ml" 35 true)
              eq_refl eq_refl)
    as (p & w1 & Hrun & Hp & Hget & _).
  - simpl; intros q [<-|[<-|[]]]; discriminate.
  - exists p, w1; split; [exact Hrun|]; split; [exact Hget|].
    rewrite Hp; reflexivity.
Defined.

(** ** Balance adjustments, composed *)

Lemma add_coins_twice (a b : Z) (t1 t2 : Tick) (u : User) :
  storage.add_coins b t2 (storage.add_coins a t1 u)
  = storage.add_coins (a + b) t2 u.
Proof.
  unfold storage.add_coins; simpl; f_equal; lia.
Qed.

(** X17.  Two balance adjustments in a row are one adjustment by the sum: the
    users table after adjusting by [a] and then by [b] is the table after a
    single adjustment by [a + b] made at the time of the second.  So the
    balance read afterwards is the old balance plus [a + b], whatever the
    order of the two, and adjusting by [a] and then by [- a] restores it. *)
Theorem balance_adjustments_add_up
  (w : World) (userId : string) (a b : Z) :
  failure (env w (pc w)) = None ->
  failure (env w (S (pc w))) = None ->
  exists u1 w1 u2 w2,
    storage.updateUserCoins userId a w = (inr u1, w1)
    /\ storage.updateUserCoins userId b w1 = (inr u2, w2)
    /\ db w2
       = set_users
           (update_where (fun u => String.eqb (users.id u) userId)
              (storage.add_coins (a + b) (env w (S (pc w))))
              (users_rows (db w)))
           (db w)
    /\ coinBalance_of userId (db w2)
       = option_map (fun bal => bal + (a + b)) (coinBalance_of userId (db w))
    /\ (b = - a ->
        coinBalance_of userId (db w2) = coinBalance_of userId (db w)).
Proof.
  intros H0 H1.
  unfold storage.updateUserCoins.
  do 4 eexists.
  split; [apply statement_ok; exact H0|].
  split; [apply statement_ok; exact H1|].
  cbn [fst snd db env pc].
  assert (Hrows :
    update_where (fun u => String.eqb (users.id u) userId)
      (storage.add_coins b (env w (S (pc w))))
      (update_where (fun u => String.eqb (users.id u) userId)
         (storage.add_coins a (env w (pc w))) (users_rows (db w)))
    = update_where (fun u => String.eqb (users.id u) userId)
        (storage.add_coins (a + b) (env w (S (pc w)))) (users_rows (db w))).
  { rewrite update_where_twice by (intros x Hx; exact Hx).
    apply update_where_ext; intros x _ _; apply add_coins_twice. }
  assert (Hdb :
    set_users
      (update_where (fun u => String.eqb (users.id u) userId)
         (storage.add_coins b (env w (S (pc w))))
         (users_rows
            (set_users
               (update_where (fun u => String.eqb (users.id u) userId)
                  (storage.add_coins a (env w (pc w))) (users_rows (db w)))
               (db w))))
      (set_users
         (update_where (fun u => String.eqb (users.id u) userId)
            (storage.add_coins a (env w (pc w))) (users_rows (db w)))
         (db w))
    = set_users
        (update_where (fun u => String.eqb (users.id u) userId)
           (storage.add_coins (a + b) (env w (S (pc w))))
           (users_rows (db w)))
        (db w)).
  { cbn [users_rows set_users]; rewrite Hrows; reflexivity. }
  rewrite Hdb.
  split; [reflexivity|].
  assert (Hbal :
    coinBalance_of userId
      (set_users
         (update_where (fun u => String.eqb (users.id u) userId)
            (storage.add_coins (a + b) (env w (S (pc w))))
            (users_rows (db w)))
         (db w))
    = option_map (fun bal => bal + (a + b)) (coinBalance_of userId (db w)))
    by (apply (coinBalance_of_adjusted (db w) userId (a + b)
                 (env w (S (pc w)))); reflexivity).
  split; [exact Hbal|].
  intros ->; rewrite Hbal.
  destruct (coinBalance_of userId (db w)); simpl; [f_equal; lia|reflexivity].
Qed.

Lemma balance_adjustments_add_up_witness :
  exists u1 w1 u2 w2,
    storage.updateUserCoins "dana" 20 (mkWorld (salon_db 100) calm_env 0)
    = (inr u1, w1)
    /\ storage.updateUserCoins "dana" (-50) w1 = (inr u2, w2)
    /\ coinBalance_of "dana" (db w2) = Some 70.
Proof.
  destruct (balance_adjustments_add_up
              (mkWorld (salon_db 100) calm_env 0) "dana" 20 (-50)
              eq_refl eq_refl)
    as (u1 & w1 & u2 & w2 & Hrun1 & Hrun2 & _ & Hbal & _).
  exists u1, w1, u2, w2; split; [exact Hrun1|]; split; [exact Hrun2|].
  rewrite Hbal; reflexivity.
Defined.

(** ** Lists by user *)

Lemma user_list_rows {A} (table : Db -> list A) (owner : A -> string)
  (key : A -> Z) (userId : string) (w : World) :
  failure (env w (pc w)) = None ->
  exists rows,
    statement (fun _ d =>
      (orderBy_desc key
         (where_ (fun r => String.eqb (owner r) userId) (table d)), d)) w
    = (inr rows, mkWorld (db w) (env w) (S (pc w)))
    /\ forall r, In r rows <-> In r (table (db w)) /\ owner r = userId.
Proof.
  intros Hok; rewrite statement_ok by exact Hok; cbn [fst snd].
  eexists; split; [reflexivity|].
  intros r; rewrite orderBy_desc_In; unfold where_; rewrite filter_In.
  rewrite String.eqb_eq; reflexivity.
Qed.

(** X18.  The four lists by user hold the rows of that user and nothing else: a
    row is in the answer exactly when it is stored and carries the user id
    asked for.  No row of another user is ever returned, and none of the
    user's own is left out. *)
Theorem user_lists_hold_own_rows_only (w : World) (userId : string) :
  failure (env w (pc w)) = None ->
  (exists rows,
     storage.getUserAppointments userId w
     = (inr rows, mkWorld (db w) (env w) (S (pc w)))
     /\ forall r, In r rows <->
          In r (appointments_rows (db w)) /\ appointments.userId r = userId)
  /\ (exists rows,
        storage.getUserOrders userId w
        = (inr rows, mkWorld (db w) (env w) (S (pc w)))
        /\ forall r, In r rows <->
             In r (orders_rows (db w)) /\ orders.userId r = userId)
  /\ (exists rows,
        storage.getUserMessages userId w
        = (inr rows, mkWorld (db w) (env w) (S (pc w)))
        /\ forall r, In r rows <->
             In r (messages_rows (db w)) /\ messages.userId r = userId)
  /\ (exists rows,
        storage.getUserCoinTransactions userId w
        = (inr rows, mkWorld (db w) (env w) (S (pc w)))
        /\ forall r, In r rows <->
             In r (coinTransactions_rows (db w))
             /\ coinTransactions.userId r = userId).
Proof.
  intros Hok; split; [|split; [|split]].
  - apply (user_list_rows appointments_rows appointments.userId), Hok.
  - apply (user_list_rows orders_rows orders.userId), Hok.
  - apply (user_list_rows messages_rows messages.userId), Hok.
  - apply (user_list_rows coinTransactions_rows coinTransactions.userId), Hok.
Qed.

Lemma user_lists_hold_own_rows_only_witness :
  exists rows,
    storage.getUserAppointments "noa" (mkWorld (salon_db 100) calm_env 0)
    = (inr rows, mkWorld (salon_db 100) calm_env 1)
    /\ ~ In haircut rows.
Proof.
  destruct (user_lists_hold_own_rows_only
              (mkWorld (salon_db 100) calm_env 0) "noa" eq_refl)
    as ((rows & Hrun & Hrows) & _).
  exists rows; split; [exact Hrun|].
  intros Hin; apply Hrows in Hin; destruct Hin as [_ Hown]; discriminate.
Defined.

(** ** The books across the whole API *)

Ltac quiet_route Hnf :=
  unfold try_catch, bind, parse, throw, ret, res_json, res_status_json,
    statement;
  cbn [db env pc fst snd];
  repeat match goal with
         | |- context [match ?r with inl _ => _ | inr _ => _ end] =>
             destruct r; cbn [db env pc fst snd]
         end;
  rewrite ?Hnf; cbn [db env pc fst snd].

Lemma route_keeps_books {Body : Type}
  (insertAppointmentSchema : Body -> string -> string + InsertAppointment.t)
  (insertProductSchema : Body -> string + InsertProduct.t)
  (insertOrderSchema : Body -> string -> string + InsertOrder.t)
  (insertMessageSchema : Body -> string -> string -> string + InsertMessage.t)
  (r : Request) (w : World) :
  never_fails w -> reconciled (db w) ->
  never_fails (respond insertAppointmentSchema insertProductSchema
                 insertOrderSchema insertMessageSchema r w)
  /\ reconciled (db (respond insertAppointmentSchema insertProductSchema
                       insertOrderSchema insertMessageSchema r w)).
Proof.
  intros Hnf Hbooks.
  destruct r; cbn [respond].
  - unfold GET_api_auth_user, storage.getUser; quiet_route Hnf;
      split; assumption.
  - apply booking_keeps_books; assumption.
  - unfold GET_api_appointments, storage.getUserAppointments;
      quiet_route Hnf; split; assumption.
  - unfold GET_api_admin_appointments, storage.getAllAppointments;
      quiet_route Hnf; split; assumption.
  - unfold GET_api_products, storage.getProducts; quiet_route Hnf;
      split; assumption.
  - unfold POST_api_admin_products, storage.createProduct; quiet_route Hnf;
      split; assumption.
  - apply checkout_keeps_books; assumption.
  - unfold GET_api_orders, storage.getUserOrders; quiet_route Hnf;
      split; assumption.
  - unfold GET_api_admin_orders, storage.getAllOrders; quiet_route Hnf;
      split; assumption.
  - unfold POST_api_messages, storage.createMessage; quiet_route Hnf;
      split; assumption.
  - unfold GET_api_messages, storage.getUserMessages; quiet_route Hnf;
      split; assumption.
  - unfold GET_api_admin_messages, storage.getAdminMessages;
      quiet_route Hnf; split; assumption.
  - unfold GET_api_coins_transactions, storage.getUserCoinTransactions;
      quiet_route Hnf; split; assumption.
Qed.

(** X19.  No route but booking and checkout touches a balance or the ledger, so
    the books stay reconciled across the whole API: from a reconciled
    store, and as long as no storage statement is rejected, every user's
    balance equals the sum of that user's ledger after any sequence of
    requests to any of the thirteen routes. *)
Theorem books_hold_across_every_route {Body : Type}
  (insertAppointmentSchema : Body -> string -> string + InsertAppointment.t)
  (insertProductSchema : Body -> string + InsertProduct.t)
  (insertOrderSchema : Body -> string -> string + InsertOrder.t)
  (insertMessageSchema : Body -> string -> string -> string + InsertMessage.t)
  (requests : list Request) (w : World) :
  never_fails w ->
  reconciled (db w) ->
  reconciled
    (db (respond_all insertAppointmentSchema insertProductSchema
                     insertOrderSchema insertMessageSchema requests w)).
Proof.
  unfold respond_all.
  revert w; induction requests as [|r rest IH]; intros w Hnf Hbooks; simpl.
  - exact Hbooks.
  - destruct (route_keeps_books insertAppointmentSchema insertProductSchema
                insertOrderSchema insertMessageSchema r w Hnf Hbooks)
      as [Hnf' Hbooks'].
    apply IH; assumption.
Qed.

Lemma books_hold_across_every_route_witness :
  reconciled
    (db (respond_all exampleAppointmentSchema exampleProductSchema
           exampleOrderSchema exampleMessageSchema
           [PostAppointment "dana" (AppointmentBody "Haircut" 5000 20);
            PostMessage "dana" (MessageBody "Is Friday free?");
            GetCoinTransactions "dana";
            PostOrder "dana" (OrderBody "Shampoo" 40 120);
            PostAdminProduct (ProductBody "Conditioner" "250 ml" 35)]
           (mkWorld (salon_db 100) calm_env 0))).
Proof.
  apply (books_hold_across_every_route
           exampleAppointmentSchema exampleProductSchema
           exampleOrderSchema exampleMessageSchema).
  - intros n; reflexivity.
  - apply salon_db_reconciled.
Defined.

(** X20.  A served booking shows in the coin history: the entry of the award is
    among the rows [GET /api/coins/transactions] then sends to the user who
    booked. *)
Theorem award_shows_in_coin_history {Body : Type}
  (insertAppointmentSchema : Body -> string -> string + InsertAppointment.t)
  (userId : string) (body : Body) (data : InsertAppointment.t) (w : World) :
  insertAppointmentSchema body userId = inr data ->
  failure (env w (pc w)) = None ->
  failure (env w (S (pc w))) = None ->
  failure (env w (S (S (pc w)))) = None ->
  failure (env w (S (S (S (pc w))))) = None ->
  exists appointment w1 history w2,
    POST_api_appointments insertAppointmentSchema userId body w
    = (inr (Json 200 appointment), w1)
    /\ GET_api_coins_transactions userId w1 = (inr (Json 200 history), w2)
    /\ exists entry,
         In entry history
         /\ coinTransactions.userId entry = userId
         /\ coinTransactions.amount entry = InsertAppointment.coinsEarned data
         /\ coinTransactions.type entry = "earned_appointment"
         /\ coinTransactions.relatedId entry
            = Some (appointments.id appointment).
Proof.
  intros Hparse H0 H1 H2 H3.
  do 4 eexists; split.
  - unfold POST_api_appointments; apply try_ok.
    rewrite (parse_accepted _ _ _ _ Hparse).
    unfold storage.createAppointment; next_ok H0.
    unfold storage.addCoinTransaction; next_ok H1.
    unfold storage.updateUserCoins; next_ok H2.
    reflexivity.
  - split.
    + unfold GET_api_coins_transactions; apply try_ok.
      unfold storage.getUserCoinTransactions; next_ok H3.
      reflexivity.
    + eexists; split.
      * apply orderBy_desc_In; unfold where_; apply filter_In; split.
        -- cbn; apply in_or_app; right; left; reflexivity.
        -- cbn; apply String.eqb_refl.
      * repeat split; reflexivity.
Qed.

Lemma award_shows_in_coin_history_witness :
  exists appointment w1 history w2,
    POST_api_appointments exampleAppointmentSchema "dana"
      (AppointmentBody "Haircut" 5000 20) (mkWorld (salon_db 100) calm_env 0)
    = (inr (Json 200 appointment), w1)
    /\ GET_api_coins_transactions "dana" w1 = (inr (Json 200 history), w2)
    /\ exists entry, In entry history /\ coinTransactions.amount entry = 20.
Proof.
  destruct (award_shows_in_coin_history exampleAppointmentSchema "dana"
              (AppointmentBody "Haircut" 5000 20)
              (InsertAppointment.mk "dana" "Haircut" 5000 20 "created")
              (mkWorld (salon_db 100) calm_env 0)
              eq_refl eq_refl eq_refl eq_refl eq_refl)
    as (a & w1 & history & w2 & Hrun & Hget & entry & Hin & _ & Hamount & _).
  exists a, w1, history, w2; split; [exact Hrun|]; split; [exact Hget|].
  exists entry; split; [exact Hin|exact Hamount].
Defined.
